(** * Disk snapshot automation: a shallow embedding of [main.py]

    The module is operational glue around a cloud provider: an HTTP handler
    ([main]) validates a JSON payload, a batch orchestrator
    ([create_snapshots_for_all_disks]) lists the disks of a zone and asks for
    one snapshot per disk ([create_snapshot]), and every provider operation is
    awaited by [wait_for_extended_operation].

    The provider, the wall clock and the interpreter's [str] of compound
    values are outside the module.  They are gathered in a record [env] of
    oracles over which every statement is universally quantified; an oracle
    sees the history of provider calls made so far, so its answers may change
    from one call to the next.  The code itself is written in a small
    state-and-exception monad over a [world] that records what the code did:
    provider calls, clock reads, the two output streams, and a call log of
    the module's own functions. *)

From Stdlib Require Import ZArith List String Ascii Bool Lia.
From Stdlib Require Import DecimalString.
From Stdlib Require Import Floats.SpecFloat.
From Stdlib Require Strings.Byte.
Import ListNotations.

Local Open Scope string_scope.
Local Open Scope Z_scope.

#[local] Set Warnings "-register-all".

(** ** Python values *)

(** The values [json.loads] can produce, which are also the values the
    handler passes on as [project] and [zone]. *)
Inductive pyval : Type :=
| PNone
| PBool (b : bool)
| PInt (z : Z)
| PFloat (f : spec_float)
| PStr (s : string)
| PList (l : list pyval)
| PDict (d : list (string * pyval)).

Definition string_nonempty (s : string) : bool :=
  match s with EmptyString => false | String _ _ => true end.

Definition list_nonempty {A : Type} (l : list A) : bool :=
  match l with [] => false | _ :: _ => true end.

(** Truth value testing, as used by [if x:] and [not x]. *)
Definition truthy (v : pyval) : bool :=
  match v with
  | PNone => false
  | PBool b => b
  | PInt z => negb (z =? 0)
  | PFloat (S754_zero _) => false
  | PFloat _ => true
  | PStr s => string_nonempty s
  | PList l => list_nonempty l
  | PDict d => list_nonempty d
  end.

Definition is_none (v : pyval) : bool :=
  match v with PNone => true | _ => false end.

Definition type_name (v : pyval) : string :=
  match v with
  | PNone => "NoneType"
  | PBool _ => "bool"
  | PInt _ => "int"
  | PFloat _ => "float"
  | PStr _ => "str"
  | PList _ => "list"
  | PDict _ => "dict"
  end.

(** A dict is kept as its items in insertion order, keys pairwise distinct;
    lookup returns the binding of the key. *)
Fixpoint dict_lookup (k : string) (d : list (string * pyval)) : option pyval :=
  match d with
  | [] => None
  | (k', v) :: d' => if String.eqb k k' then Some v else dict_lookup k d'
  end.

Definition str_int (z : Z) : string := NilZero.string_of_int (Z.to_int z).

(** ** Exceptions and results

    Only exceptions deriving from [Exception] are modelled: these are what
    the provider client raises and what [except Exception] catches. *)
Inductive exn_class : Type :=
| ValueError
| RuntimeError
| AttributeError
| OtherError (name : string).

Record exn : Type := Exn { exn_type : exn_class; exn_str : string }.

Inductive result (A : Type) : Type :=
| Return (a : A)
| Raise (e : exn).
Arguments Return {A} a.
Arguments Raise {A} e.

(** ** Provider resources *)

Record disk : Type := Disk { disk_name : string; self_link : string }.

Record snapshot : Type := Snapshot {
  source_disk : string;
  snapshot_name : string;
  storage_locations : list pyval }.

Record warning : Type := Warning { warning_code : string; warning_message : string }.

(** An extended operation as the waiter sees it: the outcome of
    [operation.result(timeout=...)] and the attributes read afterwards. *)
Record operation : Type := Operation {
  op_result : Z -> result pyval;
  error_code : Z;
  error_message : string;
  op_name : string;
  op_exception : option exn;
  warnings : list warning }.

(** The pager returned by a listing call: iterating it fetches further pages,
    which may fail part-way. *)
Inductive pager : Type :=
| PageEnd
| PageItem (d : disk) (rest : pager)
| PageFail (e : exn).

Inductive client : Type := DisksClient | RegionDisksClient | SnapshotsClient.

(** ** The world *)

Inductive net_event : Type :=
| NewClient (c : client)
| DisksList (project zone : pyval)
| RegionDisksList (project region : pyval)
| DisksGet (project zone : pyval) (disk : string)
| RegionDisksGet (project region : pyval) (disk : string)
| SnapshotsInsert (project : pyval) (snapshot_resource : snapshot)
| OperationResult (name : string) (timeout : Z)
| SnapshotsGet (project : pyval) (snapshot : string).

(** Entries of the call log: one per entry into a function of the module. *)
Inductive call : Type :=
| CallWait (op : string) (verbose_name : string) (timeout : Z)
| CallListDisks (project zone region : pyval)
| CallCreateSnapshot (project : pyval) (disk snapshot : string)
    (zone region location disk_project : pyval)
| CallCreateAll (project zone : pyval).

Record world : Type := World {
  net : list net_event;
  ticks : nat;
  calls : list call;
  stderr : list string;
  stdout : list string }.

Inductive month_of_year : Type :=
| January | February | March | April | May | June
| July | August | September | October | November | December.

(** What the orchestrator reads of [datetime.now()]. *)
Record datetime : Type := Datetime { year : Z; month : month_of_year }.

Record env : Type := Env {
  new_client : list net_event -> client -> option exn;
  disks_list : list net_event -> pyval -> pyval -> result pager;
  region_disks_list : list net_event -> pyval -> pyval -> result pager;
  disks_get : list net_event -> pyval -> pyval -> string -> result disk;
  region_disks_get : list net_event -> pyval -> pyval -> string -> result disk;
  snapshots_insert : list net_event -> pyval -> snapshot -> result operation;
  snapshots_get : list net_event -> pyval -> string -> result snapshot;
  now : nat -> datetime;
  str_compound : pyval -> string }.

(** ** The monad *)

Definition M (A : Type) : Type := world -> result A * world.

Definition ret {A : Type} (a : A) : M A := fun w => (Return a, w).

Definition raise {A : Type} (e : exn) : M A := fun w => (Raise e, w).

Definition bind {A B : Type} (m : M A) (k : A -> M B) : M B :=
  fun w => match m w with
           | (Return a, w') => k a w'
           | (Raise e, w') => (Raise e, w')
           end.

(** [try: m except Exception as e: h e] *)
Definition try_except {A : Type} (m : M A) (h : exn -> M A) : M A :=
  fun w => match m w with
           | (Return a, w') => (Return a, w')
           | (Raise e, w') => h e w'
           end.

Declare Scope py_scope.
Delimit Scope py_scope with py.
Notation "x <- m ;; k" := (bind m (fun x => k))
  (at level 61, m at next level, right associativity) : py_scope.
Notation "m ;; k" := (bind m (fun _ => k))
  (at level 61, right associativity) : py_scope.
Local Open Scope py_scope.

Definition print_stderr (s : string) : M unit :=
  fun w => (Return tt, World (net w) (ticks w) (calls w) (stderr w ++ [s]) (stdout w)).

Definition print_stdout (s : string) : M unit :=
  fun w => (Return tt, World (net w) (ticks w) (calls w) (stderr w) (stdout w ++ [s])).

Definition log_call (c : call) (w : world) : world :=
  World (net w) (ticks w) (calls w ++ [c]) (stderr w) (stdout w).

Definition enter (c : call) : M unit := fun w => (Return tt, log_call c w).

Definition emit (ev : net_event) (w : world) : world :=
  World (net w ++ [ev]) (ticks w) (calls w) (stderr w) (stdout w).

(** A provider call: the oracle answers from the history, the call is
    recorded whatever the answer. *)
Definition request_provider {A : Type} (ev : net_event)
    (answer : list net_event -> result A) : M A :=
  fun w => (answer (net w), emit ev w).

Fixpoint for_each {A : Type} (l : list A) (body : A -> M unit) : M unit :=
  match l with
  | [] => ret tt
  | x :: l' => body x ;; for_each l' body
  end.

(** [list(pager)] *)
Fixpoint py_list (p : pager) : result (list disk) :=
  match p with
  | PageEnd => Return []
  | PageItem d rest =>
      match py_list rest with
      | Return ds => Return (d :: ds)
      | Raise e => Raise e
      end
  | PageFail e => Raise e
  end.

(** ** Formatting *)

(** [str(v)] as used by f-string interpolation.  Floats, lists and dicts are
    rendered by the interpreter ([str_compound]). *)
Definition py_str (E : env) (v : pyval) : string :=
  match v with
  | PNone => "None"
  | PBool true => "True"
  | PBool false => "False"
  | PInt z => str_int z
  | PStr s => s
  | _ => str_compound E v
  end.

Definition lower_ascii (c : ascii) : ascii :=
  let n := nat_of_ascii c in
  if (Nat.leb 65 n && Nat.leb n 90)%bool then ascii_of_nat (n + 32) else c.

(** [str.lower()] on ASCII text. *)
Fixpoint lower (s : string) : string :=
  match s with
  | EmptyString => EmptyString
  | String c s' => String (lower_ascii c) (lower s')
  end.

(** [strftime('%B')] in the default (C) locale. *)
Definition strftime_B (d : datetime) : string :=
  match month d with
  | January => "January" | February => "February" | March => "March"
  | April => "April" | May => "May" | June => "June"
  | July => "July" | August => "August" | September => "September"
  | October => "October" | November => "November" | December => "December"
  end.

(** [strftime('%Y')]: the year as a decimal number. *)
Definition strftime_Y (d : datetime) : string := str_int (year d).

Definition newline : string := String (ascii_of_nat 10) EmptyString.

(** ** The handler's request and response *)

Record request : Type := Request {
  get_data : list Byte.byte;
  get_json : pyval }.

(** [make_response(jsonify(body), status)] and the pair
    [(jsonify(body), status)] denote the same HTTP response. *)
Record response : Type := Response { body : pyval; status : Z }.

Definition jsonify (items : list (string * pyval)) : pyval := PDict items.

Definition make_response (b : pyval) (code : Z) : response := Response b code.

(** [obj.get(key)]: the dict method; any other JSON value has no [get]. *)
Definition method_get (obj : pyval) (key : string) : M pyval :=
  match obj with
  | PDict d => ret (match dict_lookup key d with Some v => v | None => PNone end)
  | _ => raise (Exn AttributeError
                 ("'" ++ type_name obj ++ "' object has no attribute 'get'"))
  end.

(** ** The module *)

Section Program.

Variable E : env.

Definition datetime_now : M datetime :=
  fun w => (Return (now E (ticks w)),
            World (net w) (S (ticks w)) (calls w) (stderr w) (stdout w)).

Definition construct (c : client) : M unit :=
  request_provider (NewClient c)
    (fun h => match new_client E h c with Some e => Raise e | None => Return tt end).

Definition print_warnings (ws : list warning) : M unit :=
  for_each ws (fun warning =>
    print_stderr (" - " ++ warning_code warning ++ ": " ++ warning_message warning)).

Definition wait_for_extended_operation
    (operation : operation) (verbose_name : string) (timeout : Z) : M pyval :=
  enter (CallWait (op_name operation) verbose_name timeout) ;;
  result <- try_except
              (request_provider (OperationResult (op_name operation) timeout)
                 (fun _ => op_result operation timeout))
              (fun e => print_stderr ("Operation failed: " ++ exn_str e) ;; raise e) ;;
  if negb (error_code operation =? 0) then
    print_stderr ("Error during " ++ verbose_name ++ ": [Code: "
                  ++ str_int (error_code operation) ++ "]: "
                  ++ error_message operation) ;;
    print_stderr ("Operation ID: " ++ op_name operation) ;;
    raise (match op_exception operation with
           | Some e => e
           | None => Exn RuntimeError (error_message operation)
           end)
  else
    (if list_nonempty (warnings operation) then
       print_stderr ("Warnings during " ++ verbose_name ++ ":" ++ newline) ;;
       print_warnings (warnings operation)
     else ret tt) ;;
    ret result.

Definition list_disks (project zone region : pyval) : M (list disk) :=
  enter (CallListDisks project zone region) ;;
  disks <- (if truthy zone then
              construct DisksClient ;;
              request_provider (DisksList project zone)
                (fun h => disks_list E h project zone)
            else if truthy region then
              construct RegionDisksClient ;;
              request_provider (RegionDisksList project region)
                (fun h => region_disks_list E h project region)
            else
              raise (Exn ValueError "Either `zone` or `region` must be provided.")) ;;
  fun w => (py_list disks, w).

Definition create_snapshot (project : pyval) (disk_name snapshot_name : string)
    (zone region location disk_project : pyval) : M snapshot :=
  enter (CallCreateSnapshot project disk_name snapshot_name
           zone region location disk_project) ;;
  if (is_none zone && is_none region)%bool then
    raise (Exn RuntimeError
             "You need to specify `zone` or `region` for this function to work.")
  else if (negb (is_none zone) && negb (is_none region))%bool then
    raise (Exn RuntimeError "You can't set both `zone` and `region` parameters.")
  else
    let disk_project := if is_none disk_project then project else disk_project in
    disk <- (if negb (is_none zone) then
               construct DisksClient ;;
               request_provider (DisksGet disk_project zone disk_name)
                 (fun h => disks_get E h disk_project zone disk_name)
             else
               construct RegionDisksClient ;;
               request_provider (RegionDisksGet disk_project region disk_name)
                 (fun h => region_disks_get E h disk_project region disk_name)) ;;
    let snapshot :=
      Snapshot (self_link disk) snapshot_name
               (if truthy location then [location] else []) in
    construct SnapshotsClient ;;
    operation <- request_provider (SnapshotsInsert project snapshot)
                   (fun h => snapshots_insert E h project snapshot) ;;
    wait_for_extended_operation operation
      ("snapshot creation for " ++ disk_name) 300 ;;
    request_provider (SnapshotsGet project snapshot_name)
      (fun h => snapshots_get E h project snapshot_name).

(** The f-string of the loop body. *)
Definition patching_name (disk_name current_month_name current_year : string) : string :=
  disk_name ++ "-" ++ current_month_name ++ "-" ++ current_year ++ "-patching".

Definition snapshot_disk (project zone : pyval)
    (current_month_name current_year : string) (disk : disk) : M unit :=
  let snapshot_name :=
    patching_name (disk_name disk) current_month_name current_year in
  try_except
    (create_snapshot project (disk_name disk) snapshot_name zone PNone PNone PNone ;;
     print_stdout ("Snapshot '" ++ snapshot_name
                   ++ "' created successfully for disk '" ++ disk_name disk ++ "'."))
    (fun e =>
       print_stdout ("Snapshot creation failed for disk '" ++ disk_name disk
                     ++ "': " ++ exn_str e)).

Definition create_snapshots_for_all_disks (project zone : pyval) : M unit :=
  enter (CallCreateAll project zone) ;;
  disks <- list_disks project zone PNone ;;
  month_reading <- datetime_now ;;
  let current_month_name := lower (strftime_B month_reading) in
  year_reading <- datetime_now ;;
  let current_year := strftime_Y year_reading in
  for_each disks (snapshot_disk project zone current_month_name current_year).

Definition main (request : request) : M response :=
  if negb (list_nonempty (get_data request)) then
    ret (make_response (jsonify [("error", PStr "Empty request body")]) 400)
  else
    let request_json := get_json request in
    if negb (truthy request_json) then
      ret (make_response (jsonify [("error", PStr "Invalid JSON payload")]) 400)
    else
      project <- method_get request_json "project" ;;
      zone <- method_get request_json "zone" ;;
      print_stderr ("Received request payload: project=" ++ py_str E project
                    ++ ", zone=" ++ py_str E zone) ;;
      if (negb (truthy project) || negb (truthy zone))%bool then
        ret (make_response
               (jsonify [("error", PStr "Missing 'project' or 'zone' in request")]) 400)
      else
        try_except
          (create_snapshots_for_all_disks project zone ;;
           ret (Response (jsonify [("message", PStr "Snapshots created successfully")]) 200))
          (fun e =>
             print_stderr ("Snapshot creation failed: " ++ exn_str e) ;;
             ret (make_response
                    (jsonify [("error", PStr ("Snapshot creation failed: " ++ exn_str e))])
                    500)).

End Program.

(** ** Reading the call log and the responses *)

(** The (disk, snapshot name) pairs of the [create_snapshot] calls of a log. *)
Fixpoint snapshot_attempts (cs : list call) : list (string * string) :=
  match cs with
  | [] => []
  | CallCreateSnapshot _ d s _ _ _ _ :: cs' => (d, s) :: snapshot_attempts cs'
  | _ :: cs' => snapshot_attempts cs'
  end.

(** Entries into the batch orchestrator. *)
Fixpoint orchestrator_calls (cs : list call) : nat :=
  match cs with
  | [] => 0%nat
  | CallCreateAll _ _ :: cs' => S (orchestrator_calls cs')
  | _ :: cs' => orchestrator_calls cs'
  end.

Definition error_response (code : Z) (message : string) : response :=
  Response (PDict [("error", PStr message)]) code.

Definition success_response : response :=
  Response (PDict [("message", PStr "Snapshots created successfully")]) 200.

Definition success_line (snapshot_name disk_name : string) : string :=
  "Snapshot '" ++ snapshot_name ++ "' created successfully for disk '"
  ++ disk_name ++ "'.".

Definition failure_line (disk_name : string) (e : exn) : string :=
  "Snapshot creation failed for disk '" ++ disk_name ++ "': " ++ exn_str e.

(** The naming rule in the words of the specification: disk name, month as a
    lowercase English name, year on four digits, fixed suffix. *)
Definition english_month (m : month_of_year) : string :=
  match m with
  | January => "january" | February => "february" | March => "march"
  | April => "april" | May => "may" | June => "june"
  | July => "july" | August => "august" | September => "september"
  | October => "october" | November => "november" | December => "december"
  end.

Definition digit (z : Z) : ascii := ascii_of_nat (48 + Z.to_nat (z mod 10)).

Definition four_digits (y : Z) : string :=
  String (digit (y / 1000)) (String (digit (y / 100))
    (String (digit (y / 10)) (String (digit y) EmptyString))).

Definition spec_snapshot_name (disk_name : string) (m : month_of_year) (y : Z) : string :=
  disk_name ++ "-" ++ english_month m ++ "-" ++ four_digits y ++ "-patching".

(** ** Auxiliary notions used by the statements *)

(** What the zonal branch of the lister does, read off the provider oracles. *)
Definition zonal_listing (E : env) (project zone : pyval) (h : list net_event)
  : result (list disk) * list net_event :=
  let h1 := (h ++ [NewClient DisksClient])%list in
  match new_client E h DisksClient with
  | Some e => (Raise e, h1)
  | None =>
      (match disks_list E h1 project zone with
       | Return p => py_list p
       | Raise e => Raise e
       end,
       (h1 ++ [DisksList project zone])%list)
  end.

Definition warning_line (wn : warning) : string :=
  " - " ++ warning_code wn ++ ": " ++ warning_message wn.

(** A run that leaves the clock and the standard output alone and records
    one [create_snapshot] entry, possibly followed by waiter entries. *)
Definition one_attempt (d s : string) (w w' : world) : Prop :=
  stdout w' = stdout w /\ ticks w' = ticks w
  /\ exists c tail,
       calls w' = (calls w ++ c :: tail)%list
       /\ snapshot_attempts [c] = [(d, s)]
       /\ snapshot_attempts tail = []
       /\ orchestrator_calls (c :: tail) = 0%nat.

(** The line the loop body prints for a disk, given how creation ended. *)
Definition attempt_line (disk_name snapshot_name : string) (r : result snapshot) : string :=
  match r with
  | Return _ => success_line snapshot_name disk_name
  | Raise e => failure_line disk_name e
  end.

Definition line_about (m y : string) (d : disk) (line : string) : Prop :=
  line = success_line (patching_name (disk_name d) m y) (disk_name d)
  \/ exists e, line = failure_line (disk_name d) e.

Definition four_digit_years : list Z :=
  map Z.of_nat (seq (Z.to_nat 1000) (Z.to_nat 9000)).

(** The value [request_json.get(key)] of a dict payload. *)
Definition field (key : string) (d : list (string * pyval)) : pyval :=
  match dict_lookup key d with Some v => v | None => PNone end.

Definition received_line (E : env) (project zone : pyval) : string :=
  "Received request payload: project=" ++ py_str E project
  ++ ", zone=" ++ py_str E zone.

(** The world once the payload has been logged. *)
Definition received (E : env) (project zone : pyval) (w : world) : world :=
  snd (print_stderr (received_line E project zone) w).

(** A request that passes every check of the handler. *)
Definition validated (req : request) (project zone : pyval) : Prop :=
  list_nonempty (get_data req) = true
  /\ exists d, get_json req = PDict d
               /\ dict_lookup "project" d = Some project
               /\ dict_lookup "zone" d = Some zone
               /\ truthy project = true /\ truthy zone = true.

Definition absent_or_empty (key : string) (d : list (string * pyval)) : Prop :=
  dict_lookup key d = None \/ dict_lookup key d = Some (PStr "").

(** ** A sample provider

    Two disks are listed in the zone; fetching [d1] fails, [boot-disk] can be
    snapshotted; the clock stands at March 2024. *)

Definition quote : string := String (ascii_of_nat 34) EmptyString.

Definition quoted (s : string) : string := quote ++ s ++ quote.

Definition sample_disks : list disk :=
  [Disk "d1" "zones/z/disks/d1"; Disk "boot-disk" "zones/z/disks/boot-disk"].

Definition warned_operation : operation :=
  Operation (fun _ => Return PNone) 0 "" "operation-1" None
            [Warning "DEPRECATED_RESOURCE_USED" "image is deprecated"].

Definition failed_operation : operation :=
  Operation (fun _ => Return PNone) 404 "disk not found" "operation-2" None [].

Definition sample_env : env :=
  Env (fun _ _ => None)
      (fun _ _ _ => Return (PageItem (Disk "d1" "zones/z/disks/d1")
                             (PageItem (Disk "boot-disk" "zones/z/disks/boot-disk")
                                PageEnd)))
      (fun _ _ _ => Return PageEnd)
      (fun _ _ _ name =>
         if String.eqb name "d1"
         then Raise (Exn (OtherError "NotFound") "disk d1 is gone")
         else Return (Disk name ("zones/z/disks/" ++ name)))
      (fun _ _ _ _ => Raise (Exn (OtherError "NotFound") "no regional disk"))
      (fun _ _ _ => Return warned_operation)
      (fun _ _ name => Return (Snapshot "zones/z/disks/boot-disk" name []))
      (fun _ => Datetime 2024 March)
      (fun _ => "?").

Definition empty_world : world := World [] 0 [] [] [].

Definition sample_request : request :=
  Request (list_byte_of_string
             ("{" ++ quoted "project" ++ ": " ++ quoted "p" ++ ", "
              ++ quoted "zone" ++ ": " ++ quoted "z" ++ "}"))
          (PDict [("project", PStr "p"); ("zone", PStr "z")]).

Definition zoneless_request : request :=
  Request (list_byte_of_string ("{" ++ quoted "project" ++ ": " ++ quoted "p" ++ "}"))
          (PDict [("project", PStr "p")]).

Definition empty_object_request : request :=
  Request (list_byte_of_string "{}") (PDict []).

Definition array_request : request :=
  Request (list_byte_of_string "[1]") (PList [PInt 1]).

(** ** Further notions and sample providers *)

(** The snapshot creation requests among the provider calls of a trace. *)
Fixpoint snapshot_inserts (h : list net_event) : nat :=
  match h with
  | [] => 0%nat
  | SnapshotsInsert _ _ :: h' => S (snapshot_inserts h')
  | _ :: h' => snapshot_inserts h'
  end.

(** The sample provider with one oracle replaced. *)
Definition failed_listing_env : env :=
  Env (new_client sample_env)
      (fun _ _ _ => Raise (Exn (OtherError "Forbidden") "permission denied"))
      (region_disks_list sample_env) (disks_get sample_env)
      (region_disks_get sample_env) (snapshots_insert sample_env)
      (snapshots_get sample_env) (now sample_env) (str_compound sample_env).


Definition regional_env : env :=
  Env (new_client sample_env) (disks_list sample_env)
      (fun _ _ _ => Return (PageItem (Disk "shared" "regions/r/disks/shared") PageEnd))
      (disks_get sample_env)
      (fun _ _ _ name => Return (Disk name ("regions/r/disks/" ++ name)))
      (snapshots_insert sample_env)
      (snapshots_get sample_env) (now sample_env) (str_compound sample_env).

Definition empty_listing_env : env :=
  Env (new_client sample_env) (fun _ _ _ => Return PageEnd)
      (region_disks_list sample_env) (disks_get sample_env)
      (region_disks_get sample_env) (snapshots_insert sample_env)
      (snapshots_get sample_env) (now sample_env) (str_compound sample_env).

Definition timed_out_operation : operation :=
  Operation (fun _ => Raise (Exn (OtherError "TimeoutError") "operation timed out"))
            0 "" "operation-3" None [].

Definition clean_operation : operation :=
  Operation (fun _ => Return PNone) 0 "" "operation-4" None [].

Definition null_zone_request : request :=
  Request (list_byte_of_string
             ("{" ++ quoted "project" ++ ": " ++ quoted "p" ++ ", "
              ++ quoted "zone" ++ ": null}"))
          (PDict [("project", PStr "p"); ("zone", PNone)]).

Definition empty_body_request : request := Request [] PNone.

Definition null_request : request :=
  Request (list_byte_of_string "null") PNone.

(** * Proofs *)

Ltac run :=
  unfold bind, try_except, ret, raise, enter, print_stderr, print_stdout,
    request_provider, construct, log_call, emit; simpl.

(** ** Disk lister *)

(** C9: called with neither [zone] nor [region], the disk lister raises
    [ValueError] and has made no call to the provider: no client was built and
    no listing was requested. *)
Theorem list_disks_requires_scope (E : env) (project : pyval) (w : world) :
  fst (list_disks E project PNone PNone w)
    = Raise (Exn ValueError "Either `zone` or `region` must be provided.")
  /\ net (snd (list_disks E project PNone PNone w)) = net w.
Proof.
  unfold list_disks. run. split; reflexivity.
Qed.

Lemma list_disks_zonal (E : env) (project zone region : pyval) (w : world) :
  truthy zone = true ->
  list_disks E project zone region w
    = (fst (zonal_listing E project zone (net w)),
       World (snd (zonal_listing E project zone (net w))) (ticks w)
             (calls w ++ [CallListDisks project zone region]) (stderr w) (stdout w)).
Proof.
  intros Hz. unfold list_disks, zonal_listing. rewrite Hz. run.
  destruct (new_client E (net w) DisksClient); simpl; [reflexivity|].
  destruct (disks_list E (net w ++ [NewClient DisksClient])%list project zone);
    reflexivity.
Qed.

(** C10: with both [zone] and [region] supplied and non-empty, the lister
    does not reject its arguments.  It builds the zonal client and issues the
    zonal listing, exactly as when [region] is left out: the result and the
    provider calls are those of the zonal listing alone, whatever [region]
    is, and when the zonal listing yields all its pages the disks are
    returned. *)
Theorem list_disks_zone_takes_precedence
    (E : env) (project zone region : pyval) (w : world) :
  truthy zone = true ->
  truthy region = true ->
  fst (list_disks E project zone region w)
    = fst (list_disks E project zone PNone w)
  /\ net (snd (list_disks E project zone region w))
     = net (snd (list_disks E project zone PNone w))
  /\ fst (list_disks E project zone region w)
     = fst (zonal_listing E project zone (net w))
  /\ net (snd (list_disks E project zone region w))
     = snd (zonal_listing E project zone (net w))
  /\ (forall p ds,
        new_client E (net w) DisksClient = None ->
        disks_list E (net w ++ [NewClient DisksClient])%list project zone = Return p ->
        py_list p = Return ds ->
        fst (list_disks E project zone region w) = Return ds
        /\ net (snd (list_disks E project zone region w))
           = (net w ++ [NewClient DisksClient; DisksList project zone])%list).
Proof.
  intros Hz _.
  rewrite (list_disks_zonal E project zone region w Hz).
  rewrite (list_disks_zonal E project zone PNone w Hz). simpl.
  repeat split; try reflexivity.
  - unfold zonal_listing. rewrite H, H0. simpl. assumption.
  - unfold zonal_listing. rewrite H. simpl. rewrite <- app_assoc. reflexivity.
Qed.

(** ** Operation waiter *)

Lemma print_warnings_run (ws : list warning) (w : world) :
  print_warnings ws w
    = (Return tt,
       World (net w) (ticks w) (calls w)
             (stderr w ++ map warning_line ws) (stdout w)).
Proof.
  revert w. induction ws as [|wn ws IH]; intros w.
  - unfold print_warnings. simpl. unfold ret. rewrite app_nil_r.
    destruct w; reflexivity.
  - unfold print_warnings in *. simpl. run. rewrite IH. simpl.
    rewrite <- app_assoc. reflexivity.
Qed.

(** The waiter never touches the standard output or the clock, and logs
    exactly its own entry in the call log. *)
Lemma wait_frame (op : operation) (verbose_name : string) (timeout : Z) (w : world) :
  let w' := snd (wait_for_extended_operation op verbose_name timeout w) in
  stdout w' = stdout w /\ ticks w' = ticks w
  /\ calls w' = (calls w ++ [CallWait (op_name op) verbose_name timeout])%list.
Proof.
  unfold wait_for_extended_operation. run.
  destruct (op_result op timeout); simpl.
  - destruct (error_code op =? 0); simpl.
    + destruct (warnings op); simpl; [repeat split|].
      rewrite print_warnings_run. simpl. repeat split.
    + repeat split.
  - repeat split.
Qed.

(** C6: when the wait returns and the operation carries an error code, the
    waiter raises -- the operation's own exception when there is one,
    otherwise a [RuntimeError] carrying the provider's error message -- and
    the error stream has received, in this order, a line with the error code
    and the error message and a line with the operation identifier. *)
Theorem wait_raises_on_error_code
    (op : operation) (verbose_name : string) (timeout : Z) (r : pyval) (w : world) :
  op_result op timeout = Return r ->
  error_code op <> 0 ->
  fst (wait_for_extended_operation op verbose_name timeout w)
    = Raise (match op_exception op with
             | Some e => e
             | None => Exn RuntimeError (error_message op)
             end)
  /\ stderr (snd (wait_for_extended_operation op verbose_name timeout w))
     = List.app (stderr w)
           ["Error during " ++ verbose_name ++ ": [Code: "
              ++ str_int (error_code op) ++ "]: " ++ error_message op;
            "Operation ID: " ++ op_name op].
Proof.
  intros Hres Hcode. apply Z.eqb_neq in Hcode.
  unfold wait_for_extended_operation. run. rewrite Hres. simpl.
  rewrite Hcode. simpl. rewrite <- app_assoc. split; reflexivity.
Qed.

(** C8: when the wait returns, no error code is set and the operation
    carries warnings, the waiter returns the operation's result and the error
    stream has received a heading followed by one line per warning, giving
    its code and its message. *)
Theorem wait_logs_warnings_and_returns
    (op : operation) (verbose_name : string) (timeout : Z) (r : pyval) (w : world) :
  op_result op timeout = Return r ->
  error_code op = 0 ->
  warnings op <> [] ->
  fst (wait_for_extended_operation op verbose_name timeout w) = Return r
  /\ stderr (snd (wait_for_extended_operation op verbose_name timeout w))
     = List.app (stderr w)
           (("Warnings during " ++ verbose_name ++ ":" ++ newline)
            :: map (fun wn => " - " ++ warning_code wn ++ ": " ++ warning_message wn)
                   (warnings op)).
Proof.
  intros Hres Hcode Hw.
  unfold wait_for_extended_operation. run. rewrite Hres. simpl.
  rewrite Hcode. simpl.
  destruct (warnings op) as [|wn ws] eqn:Hws; [congruence|]. simpl.
  rewrite print_warnings_run. simpl. rewrite <- app_assoc. split; reflexivity.
Qed.

(** ** Snapshot creator *)

(** C7: called with [zone] and [region] both set, or both left unset, the
    snapshot creator raises a [RuntimeError] and has made no provider call:
    no client built, no disk fetched, no snapshot inserted, no operation
    awaited.  The output streams are untouched as well. *)
Theorem create_snapshot_rejects_scope
    (E : env) (project : pyval) (disk_name snapshot_name : string)
    (zone region location disk_project : pyval) (w : world) :
  (zone <> PNone /\ region <> PNone) \/ (zone = PNone /\ region = PNone) ->
  (exists msg,
     fst (create_snapshot E project disk_name snapshot_name
            zone region location disk_project w)
       = Raise (Exn RuntimeError msg))
  /\ net (snd (create_snapshot E project disk_name snapshot_name
                 zone region location disk_project w)) = net w
  /\ stderr (snd (create_snapshot E project disk_name snapshot_name
                    zone region location disk_project w)) = stderr w
  /\ stdout (snd (create_snapshot E project disk_name snapshot_name
                    zone region location disk_project w)) = stdout w.
Proof.
  intros [[Hz Hr] | [Hz Hr]]; unfold create_snapshot; run.
  - assert (is_none zone = false) as -> by (destruct zone; simpl; congruence).
    assert (is_none region = false) as -> by (destruct region; simpl; congruence).
    simpl. repeat split. eexists; reflexivity.
  - subst. simpl. repeat split. eexists; reflexivity.
Qed.

Lemma snapshot_attempts_app (cs cs' : list call) :
  snapshot_attempts (cs ++ cs') = (snapshot_attempts cs ++ snapshot_attempts cs')%list.
Proof.
  induction cs as [|c cs IH]; simpl; [reflexivity|].
  destruct c; simpl; rewrite IH; reflexivity.
Qed.

Lemma orchestrator_calls_app (cs cs' : list call) :
  orchestrator_calls (cs ++ cs') = (orchestrator_calls cs + orchestrator_calls cs')%nat.
Proof.
  induction cs as [|c cs IH]; simpl; [reflexivity|].
  destruct c; simpl; rewrite IH; reflexivity.
Qed.

Lemma one_attempt_here (d s : string) (w : world) (c : call)
    (n : list net_event) (err : list string) :
  snapshot_attempts [c] = [(d, s)] ->
  orchestrator_calls [c] = 0%nat ->
  one_attempt d s w (World n (ticks w) (calls w ++ [c]) err (stdout w)).
Proof.
  intros Hc Ho. repeat split. exists c, []. simpl. repeat split; assumption.
Qed.

Lemma one_attempt_wait (d s : string) (w w1 : world) (c : call)
    (op : operation) (vn : string) (t : Z) :
  snapshot_attempts [c] = [(d, s)] ->
  orchestrator_calls [c] = 0%nat ->
  stdout w1 = stdout w -> ticks w1 = ticks w ->
  calls w1 = (calls w ++ [c])%list ->
  forall w3,
    stdout w3 = stdout (snd (wait_for_extended_operation op vn t w1)) ->
    ticks w3 = ticks (snd (wait_for_extended_operation op vn t w1)) ->
    calls w3 = calls (snd (wait_for_extended_operation op vn t w1)) ->
    one_attempt d s w w3.
Proof.
  intros Hc Ho Hout Htick Hcalls w3 Ho3 Ht3 Hc3.
  destruct (wait_frame op vn t w1) as (Ho2 & Ht2 & Hc2). simpl in Ho2, Ht2, Hc2.
  unfold one_attempt. rewrite Ho3, Ht3, Hc3, Ho2, Ht2, Hc2, Hout, Htick, Hcalls.
  repeat split. exists c, [CallWait (op_name op) vn t].
  rewrite <- app_assoc. simpl. repeat split; try assumption;
    destruct c; simpl in *; congruence.
Qed.

Ltac here := unfold emit; simpl; apply one_attempt_here; assumption.

Lemma create_snapshot_attempt
    (E : env) (project : pyval) (d s : string)
    (zone region location disk_project : pyval) (w : world) :
  one_attempt d s w
    (snd (create_snapshot E project d s zone region location disk_project w)).
Proof.
  set (c := CallCreateSnapshot project d s zone region location disk_project).
  assert (Hc : snapshot_attempts [c] = [(d, s)]) by reflexivity.
  assert (Ho : orchestrator_calls [c] = 0%nat) by reflexivity.
  unfold create_snapshot. fold c. run.
  destruct (is_none zone && is_none region)%bool; simpl;
    [here|].
  destruct (negb (is_none zone) && negb (is_none region))%bool; simpl;
    [here|].
  destruct (negb (is_none zone)); simpl.
  - destruct (new_client E (net w) DisksClient); simpl;
      [here|].
    destruct (disks_get E _ _ zone d); simpl;
      [|here].
    destruct (new_client E _ SnapshotsClient); simpl;
      [here|].
    destruct (snapshots_insert E _ project _) as [op|e]; simpl;
      [|here].
    match goal with
    | |- context [wait_for_extended_operation ?o ?v ?t ?w1] =>
        pose proof (one_attempt_wait d s w w1 c o v t Hc Ho
                      eq_refl eq_refl eq_refl) as Hw;
        destruct (wait_for_extended_operation o v t w1) as [[r|e] w2]
    end; unfold emit; simpl in *; apply Hw; reflexivity.
  - destruct (new_client E (net w) RegionDisksClient); simpl;
      [here|].
    destruct (region_disks_get E _ _ region d); simpl;
      [|here].
    destruct (new_client E _ SnapshotsClient); simpl;
      [here|].
    destruct (snapshots_insert E _ project _) as [op|e]; simpl;
      [|here].
    match goal with
    | |- context [wait_for_extended_operation ?o ?v ?t ?w1] =>
        pose proof (one_attempt_wait d s w w1 c o v t Hc Ho
                      eq_refl eq_refl eq_refl) as Hw;
        destruct (wait_for_extended_operation o v t w1) as [[r|e] w2]
    end; unfold emit; simpl in *; apply Hw; reflexivity.
Qed.

(** ** Batch orchestrator *)

Lemma list_disks_frame (E : env) (project zone region : pyval) (w : world) :
  let w' := snd (list_disks E project zone region w) in
  stdout w' = stdout w /\ stderr w' = stderr w /\ ticks w' = ticks w
  /\ calls w' = (calls w ++ [CallListDisks project zone region])%list.
Proof.
  unfold list_disks. run.
  destruct (truthy zone); [|destruct (truthy region)]; simpl;
    try (repeat split; fail).
  - destruct (new_client E (net w) DisksClient); simpl; [repeat split|].
    destruct (disks_list E _ project zone); simpl; repeat split.
  - destruct (new_client E (net w) RegionDisksClient); simpl; [repeat split|].
    destruct (region_disks_list E _ project region); simpl; repeat split.
Qed.

(** One iteration of the loop never raises: whatever [create_snapshot] does,
    the body returns, having printed one line about the disk. *)
Lemma snapshot_disk_run (E : env) (project zone : pyval) (m y : string)
    (d : disk) (w : world) :
  let name := patching_name (disk_name d) m y in
  let attempt := create_snapshot E project (disk_name d) name zone PNone PNone PNone w in
  snapshot_disk E project zone m y d w
    = (Return tt,
       World (net (snd attempt)) (ticks (snd attempt)) (calls (snd attempt))
             (stderr (snd attempt))
             (stdout (snd attempt) ++ [attempt_line (disk_name d) name (fst attempt)])).
Proof.
  unfold snapshot_disk. run.
  destruct (create_snapshot E project (disk_name d) _ zone PNone PNone PNone w)
    as [[r|e] w']; reflexivity.
Qed.

Lemma for_each_snapshot_disk (E : env) (project zone : pyval) (m y : string)
    (ds : list disk) (w : world) :
  exists w' lines,
    for_each ds (snapshot_disk E project zone m y) w = (Return tt, w')
    /\ stdout w' = (stdout w ++ lines)%list
    /\ Forall2 (line_about m y) ds lines
    /\ ticks w' = ticks w
    /\ snapshot_attempts (calls w')
       = (snapshot_attempts (calls w)
          ++ map (fun d => (disk_name d, patching_name (disk_name d) m y)) ds)%list
    /\ orchestrator_calls (calls w') = orchestrator_calls (calls w).
Proof.
  revert w. induction ds as [|d ds IH]; intros w.
  - exists w, []. simpl. rewrite !app_nil_r. repeat split. constructor.
  - simpl. unfold bind. rewrite snapshot_disk_run. simpl.
    set (name := patching_name (disk_name d) m y).
    pose proof (create_snapshot_attempt E project (disk_name d) name
                  zone PNone PNone PNone w) as Hone.
    destruct (create_snapshot E project (disk_name d) name zone PNone PNone PNone w)
      as [r w1]. cbn [fst snd] in *.
    destruct Hone as (Hout & Htick & c & tail & Hcalls & Hc & Htail & Horch).
    match goal with
    | |- context [for_each ds ?f ?w2] => destruct (IH w2) as (w' & lines & Hrun & Hso & Hl & Ht & Ha & Ho)
    end.
    cbn [fst snd net ticks calls stderr stdout] in *.
    exists w', (attempt_line (disk_name d) name r :: lines).
    rewrite Hrun. split; [reflexivity|].
    split; [rewrite Hso, Hout, <- app_assoc; reflexivity|].
    split.
    { constructor; [|assumption]. unfold line_about. fold name.
      destruct r as [sn|e]; simpl; [left; reflexivity|right; eexists; reflexivity]. }
    split; [congruence|].
    split.
    + rewrite Ha, Hcalls.
      change (c :: tail) with ([c] ++ tail)%list.
      rewrite !snapshot_attempts_app, Hc, Htail, app_nil_r, <- app_assoc.
      reflexivity.
    + rewrite Ho, Hcalls, orchestrator_calls_app, Horch. lia.
Qed.

(** The orchestrator, unfolded once: a failed listing propagates; otherwise
    the clock is read twice and the loop runs over the listed disks. *)
Lemma orchestrator_unfold (E : env) (project zone : pyval) (w0 : world) :
  let listing := list_disks E project zone PNone
                   (log_call (CallCreateAll project zone) w0) in
  create_snapshots_for_all_disks E project zone w0
    = match fst listing with
      | Raise e => (Raise e, snd listing)
      | Return ds =>
          for_each ds
            (snapshot_disk E project zone
               (lower (strftime_B (now E (ticks w0))))
               (strftime_Y (now E (S (ticks w0)))))
            (World (net (snd listing)) (S (S (ticks w0))) (calls (snd listing))
                   (stderr (snd listing)) (stdout (snd listing)))
      end.
Proof.
  intros listing. unfold create_snapshots_for_all_disks.
  unfold bind at 1. unfold enter at 1. unfold bind at 1. fold listing.
  pose proof (list_disks_frame E project zone PNone
                (log_call (CallCreateAll project zone) w0)) as (_ & _ & Ht & _).
  fold listing in Ht. simpl in Ht.
  destruct listing as [[ds|e] w1]; simpl in *; [|reflexivity].
  unfold bind, datetime_now. simpl. rewrite Ht. reflexivity.
Qed.

(** C4: once the listing has returned a list of disks, the orchestrator
    returns normally and has entered [create_snapshot] once for every disk of
    the list, in order, and printed one line about each of them -- whatever
    the individual attempts did.  An attempt that raises is caught inside the
    loop body, which prints the failure together with the exception text and
    returns, so that the loop goes on to the next disk. *)
Theorem batch_attempts_every_disk
    (E : env) (project zone : pyval) (w0 : world) (ds : list disk) (w1 : world) :
  list_disks E project zone PNone (log_call (CallCreateAll project zone) w0)
    = (Return ds, w1) ->
  fst (create_snapshots_for_all_disks E project zone w0) = Return tt
  /\ map fst (snapshot_attempts
                (calls (snd (create_snapshots_for_all_disks E project zone w0))))
     = (map fst (snapshot_attempts (calls w0)) ++ map disk_name ds)%list
  /\ (exists lines,
        stdout (snd (create_snapshots_for_all_disks E project zone w0))
          = (stdout w0 ++ lines)%list
        /\ Forall2 (fun d line =>
                      (exists s, line = success_line s (disk_name d))
                      \/ (exists e, line = failure_line (disk_name d) e))
                   ds lines)
  /\ (forall m y d w e,
        fst (create_snapshot E project (disk_name d)
               (patching_name (disk_name d) m y) zone PNone PNone PNone w)
          = Raise e ->
        fst (snapshot_disk E project zone m y d w) = Return tt
        /\ stdout (snd (snapshot_disk E project zone m y d w))
           = (stdout w ++ [failure_line (disk_name d) e])%list).
Proof.
  intros Hlist.
  pose proof (list_disks_frame E project zone PNone
                (log_call (CallCreateAll project zone) w0)) as (Hso & _ & _ & Hca).
  rewrite orchestrator_unfold. cbv zeta. rewrite Hlist in *. cbn [fst snd] in *.
  match goal with
  | |- context [for_each ds ?f ?w2] =>
      destruct (for_each_snapshot_disk E project zone
                  (lower (strftime_B (now E (ticks w0))))
                  (strftime_Y (now E (S (ticks w0)))) ds w2)
        as (w' & lines & Hrun & Hout & Hl & _ & Ha & _)
  end.
  rewrite Hrun. cbn [fst snd net ticks calls stderr stdout] in *.
  split; [reflexivity|]. split; [|split].
  - rewrite Ha, Hca. simpl. rewrite !snapshot_attempts_app. simpl.
    rewrite !app_nil_r, map_app, map_map. reflexivity.
  - exists lines. rewrite Hout, Hso. split; [reflexivity|].
    eapply Forall2_impl; [|exact Hl].
    intros d line [H|H]; [left; eexists; exact H|right; exact H].
  - intros m y d w e He. rewrite snapshot_disk_run. cbn [fst snd stdout].
    rewrite He.
    pose proof (create_snapshot_attempt E project (disk_name d)
                  (patching_name (disk_name d) m y) zone PNone PNone PNone w)
      as (Ho & _).
    rewrite Ho. split; reflexivity.
Qed.

Lemma english_month_lower (d : datetime) :
  lower (strftime_B d) = english_month (month d).
Proof.
  unfold strftime_B. destruct (month d); reflexivity.
Qed.

Lemma four_digit_years_checked :
  forallb (fun y => String.eqb (str_int y) (four_digits y)) four_digit_years = true.
Proof. vm_compute. reflexivity. Qed.

Lemma strftime_Y_four_digits (d : datetime) :
  1000 <= year d <= 9999 -> strftime_Y d = four_digits (year d).
Proof.
  intros Hy. unfold strftime_Y.
  pose proof four_digit_years_checked as Hall.
  rewrite forallb_forall in Hall.
  apply String.eqb_eq, Hall. unfold four_digit_years.
  rewrite <- (Z2Nat.id (year d)) by lia.
  apply in_map, in_seq. lia.
Qed.

(** C5: for every disk the orchestrator processes, the snapshot name handed
    to [create_snapshot] is the disk name, a hyphen, the lowercase English
    name of the month read from the clock, a hyphen, the year read from the
    clock on four digits, and the suffix [-patching].  For [boot-disk] with
    the clock at March 2024 this is [boot-disk-march-2024-patching]. *)
Theorem snapshot_names_follow_rule
    (E : env) (project zone : pyval) (w0 : world) (ds : list disk) (w1 : world) :
  list_disks E project zone PNone (log_call (CallCreateAll project zone) w0)
    = (Return ds, w1) ->
  1000 <= year (now E (S (ticks w0))) <= 9999 ->
  snapshot_attempts (calls (snd (create_snapshots_for_all_disks E project zone w0)))
    = (snapshot_attempts (calls w0)
       ++ map (fun d => (disk_name d,
                         spec_snapshot_name (disk_name d)
                           (month (now E (ticks w0)))
                           (year (now E (S (ticks w0))))))
              ds)%list
  /\ patching_name "boot-disk" (lower (strftime_B (Datetime 2024 March)))
       (strftime_Y (Datetime 2024 March))
     = "boot-disk-march-2024-patching".
Proof.
  intros Hlist Hyear. split; [|reflexivity].
  pose proof (list_disks_frame E project zone PNone
                (log_call (CallCreateAll project zone) w0)) as (_ & _ & _ & Hca).
  rewrite orchestrator_unfold. cbv zeta. rewrite Hlist in *. cbn [fst snd] in *.
  match goal with
  | |- context [for_each ds ?f ?w2] =>
      destruct (for_each_snapshot_disk E project zone
                  (lower (strftime_B (now E (ticks w0))))
                  (strftime_Y (now E (S (ticks w0)))) ds w2)
        as (w' & lines & Hrun & _ & _ & _ & Ha & _)
  end.
  rewrite Hrun. cbn [fst snd net ticks calls stderr stdout] in *.
  rewrite Ha, Hca. simpl. rewrite !snapshot_attempts_app. simpl.
  rewrite !app_nil_r. f_equal. apply map_ext. intros d.
  unfold patching_name, spec_snapshot_name.
  rewrite english_month_lower, strftime_Y_four_digits by assumption.
  reflexivity.
Qed.

(** ** Request handler *)

Lemma main_object (E : env) (req : request) (d : list (string * pyval)) (w : world) :
  list_nonempty (get_data req) = true ->
  get_json req = PDict d ->
  d <> [] ->
  main E req w
    = let project := field "project" d in
      let zone := field "zone" d in
      if (negb (truthy project) || negb (truthy zone))%bool then
        (Return (error_response 400 "Missing 'project' or 'zone' in request"),
         received E project zone w)
      else
        match create_snapshots_for_all_disks E project zone
                (received E project zone w) with
        | (Return _, w2) => (Return success_response, w2)
        | (Raise e, w2) =>
            (Return (error_response 500 ("Snapshot creation failed: " ++ exn_str e)),
             snd (print_stderr ("Snapshot creation failed: " ++ exn_str e) w2))
        end.
Proof.
  intros Hdata Hjson Hd. unfold main. rewrite Hdata, Hjson.
  assert (truthy (PDict d) = true) as -> by (destruct d; [congruence|reflexivity]).
  cbv zeta. cbn [negb method_get]. fold (field "project" d) (field "zone" d).
  unfold received, received_line. run.
  destruct (negb (truthy (field "project" d)) || negb (truthy (field "zone" d)))%bool;
    [reflexivity|].
  match goal with
  | |- context [create_snapshots_for_all_disks E ?p ?z ?w1] =>
      destruct (create_snapshots_for_all_disks E p z w1) as [[u|e] w2]
  end; reflexivity.
Qed.

(** The orchestrator raises exactly when the listing does. *)
Lemma orchestrator_outcome (E : env) (project zone : pyval) (w0 : world) :
  fst (create_snapshots_for_all_disks E project zone w0)
    = match fst (list_disks E project zone PNone
                   (log_call (CallCreateAll project zone) w0)) with
      | Return _ => Return tt
      | Raise e => Raise e
      end.
Proof.
  rewrite orchestrator_unfold. cbv zeta.
  destruct (list_disks E project zone PNone
              (log_call (CallCreateAll project zone) w0)) as [[ds|e] w1];
    cbn [fst snd]; [|reflexivity].
  match goal with
  | |- context [for_each ds ?f ?w2] =>
      destruct (for_each_snapshot_disk E project zone
                  (lower (strftime_B (now E (ticks w0))))
                  (strftime_Y (now E (S (ticks w0)))) ds w2)
        as (w' & lines & Hrun & _)
  end.
  rewrite Hrun. reflexivity.
Qed.

(** C1, as the code has it on a JSON array: the body [[1]] is not empty and
    parses to a non-empty list, which passes the truth test of the payload
    check; the handler then asks the list for its [get] method and an
    [AttributeError] escapes, so no response is returned at all, neither the
    400 nor any other. *)
Theorem main_raises_on_json_array (E : env) (w : world) :
  main E array_request w
    = (Raise (Exn AttributeError "'list' object has no attribute 'get'"), w).
Proof. reflexivity. Qed.

(** The part of the payload check that holds: a body that is not JSON, and
    any JSON value that tests false ([null], [false], [0], the empty string,
    array or object), is answered 400 "Invalid JSON payload". *)
Lemma main_rejects_falsy_payload (E : env) (req : request) (w : world) :
  list_nonempty (get_data req) = true ->
  truthy (get_json req) = false ->
  main E req w = (Return (error_response 400 "Invalid JSON payload"), w).
Proof.
  intros Hdata Hjson. unfold main. rewrite Hdata, Hjson. reflexivity.
Qed.

(** A payload that tests true and is not an object makes the handler raise. *)
Lemma main_raises_on_non_object (E : env) (req : request) (w : world) :
  list_nonempty (get_data req) = true ->
  truthy (get_json req) = true ->
  (forall d, get_json req <> PDict d) ->
  exists msg, main E req w = (Raise (Exn AttributeError msg), w).
Proof.
  intros Hdata Hjson Hobj. unfold main. rewrite Hdata, Hjson. cbv zeta.
  cbn [negb]. destruct (get_json req); try (eexists; reflexivity).
  exfalso. eapply Hobj. reflexivity.
Qed.

(** C2, amended: a request whose body parses as a non-empty JSON object in
    which [project] or [zone] is absent or is the empty string is answered
    400 "Missing 'project' or 'zone' in request"; the orchestrator is not
    entered (the call log is unchanged) and no provider call is made. *)
Theorem main_rejects_missing_fields
    (E : env) (req : request) (d : list (string * pyval)) (w : world) :
  list_nonempty (get_data req) = true ->
  get_json req = PDict d ->
  d <> [] ->
  absent_or_empty "project" d \/ absent_or_empty "zone" d ->
  fst (main E req w)
    = Return (error_response 400 "Missing 'project' or 'zone' in request")
  /\ calls (snd (main E req w)) = calls w
  /\ orchestrator_calls (calls (snd (main E req w))) = orchestrator_calls (calls w)
  /\ net (snd (main E req w)) = net w.
Proof.
  intros Hdata Hjson Hd Hmiss.
  rewrite (main_object E req d w Hdata Hjson Hd). cbv zeta.
  assert (negb (truthy (field "project" d)) || negb (truthy (field "zone" d)) = true)%bool
    as ->.
  { apply orb_true_iff. unfold field.
    destruct Hmiss as [[H|H]|[H|H]]; rewrite H; auto. }
  repeat split.
Qed.

(** C3: for a validated request the handler always returns a response, and
    which one is decided by the orchestrator call alone: 200 "Snapshots
    created successfully" exactly when the call returns, 500 "Snapshot
    creation failed: " followed by the exception text exactly when it
    raises.  The call returns whenever the disk listing does -- the outcome
    of the per-disk attempts plays no part -- and raises exactly the
    exception of a failed listing. *)
Theorem main_reports_orchestrator_outcome
    (E : env) (req : request) (project zone : pyval) (w : world) :
  validated req project zone ->
  let batch := fst (create_snapshots_for_all_disks E project zone
                      (received E project zone w)) in
  let listing := fst (list_disks E project zone PNone
                        (log_call (CallCreateAll project zone)
                           (received E project zone w))) in
  (fst (main E req w) = Return success_response <-> batch = Return tt)
  /\ (forall e, batch = Raise e ->
        fst (main E req w)
          = Return (error_response 500 ("Snapshot creation failed: " ++ exn_str e)))
  /\ ((exists r, fst (main E req w) = Return r /\ status r = 500)
      <-> exists e, batch = Raise e)
  /\ (batch = Return tt <-> exists ds, listing = Return ds)
  /\ (forall e, batch = Raise e <-> listing = Raise e).
Proof.
  intros (Hdata & d & Hjson & Hp & Hz & Htp & Htz) batch listing.
  assert (Hd : d <> []) by (destruct d; [discriminate|congruence]).
  rewrite (main_object E req d w Hdata Hjson Hd). cbv zeta.
  unfold field. rewrite Hp, Hz, Htp, Htz. cbn [negb orb].
  assert (Hb : batch = match listing with Return _ => Return tt | Raise e => Raise e end)
    by apply orchestrator_outcome.
  subst batch.
  destruct (create_snapshots_for_all_disks E project zone (received E project zone w))
    as [[[]|e] w2]; cbn [fst snd] in *.
  - split; [split; reflexivity|]. split; [discriminate|].
    split; [split; [intros (r & Hr & Hs); inversion Hr; subst; discriminate
                   |intros (e & He); discriminate]|].
    destruct listing as [ds|e]; [|discriminate].
    split; [split; [eexists; reflexivity|reflexivity]|].
    intros e; split; discriminate.
  - split; [split; discriminate|].
    split; [intros e' He'; inversion He'; reflexivity|].
    split; [split; [eexists; reflexivity|eexists; split; reflexivity]|].
    destruct listing as [ds|e']; [discriminate|]. inversion Hb; subst.
    split; [split; [discriminate|intros (ds & Hds); discriminate]|].
    intros e0; split; congruence.
Qed.

(** ** The statements at the sample provider *)

(** The scenario of the specification, run end to end: creation fails for
    [d1], [boot-disk] is still snapshotted under its March 2024 name, and the
    handler answers 200. *)
Example batch_scenario :
  fst (main sample_env sample_request empty_world) = Return success_response
  /\ stdout (snd (main sample_env sample_request empty_world))
     = ["Snapshot creation failed for disk 'd1': disk d1 is gone";
        "Snapshot 'boot-disk-march-2024-patching' created successfully for disk 'boot-disk'."]
  /\ snapshot_attempts (calls (snd (main sample_env sample_request empty_world)))
     = [("d1", "d1-march-2024-patching");
        ("boot-disk", "boot-disk-march-2024-patching")].
Proof. vm_compute. repeat split. Qed.

Lemma list_disks_zone_takes_precedence_witness :
  truthy (PStr "z") = true /\ truthy (PStr "r") = true
  /\ fst (list_disks sample_env (PStr "p") (PStr "z") (PStr "r") empty_world)
     = fst (list_disks sample_env (PStr "p") (PStr "z") PNone empty_world).
Proof.
  split; [reflexivity|]. split; [reflexivity|].
  exact (proj1 (list_disks_zone_takes_precedence sample_env (PStr "p") (PStr "z")
                  (PStr "r") empty_world eq_refl eq_refl)).
Defined.

Lemma wait_raises_on_error_code_witness :
  op_result failed_operation 300 = Return PNone
  /\ error_code failed_operation <> 0
  /\ fst (wait_for_extended_operation failed_operation "snapshot creation for d1"
            300 empty_world)
     = Raise (Exn RuntimeError "disk not found").
Proof.
  split; [reflexivity|]. split; [discriminate|].
  apply (wait_raises_on_error_code failed_operation "snapshot creation for d1"
           300 PNone empty_world); [reflexivity|discriminate].
Defined.

Lemma wait_logs_warnings_and_returns_witness :
  op_result warned_operation 300 = Return PNone
  /\ error_code warned_operation = 0
  /\ warnings warned_operation <> []
  /\ fst (wait_for_extended_operation warned_operation
            "snapshot creation for boot-disk" 300 empty_world)
     = Return PNone.
Proof.
  split; [reflexivity|]. split; [reflexivity|]. split; [discriminate|].
  apply (wait_logs_warnings_and_returns warned_operation
           "snapshot creation for boot-disk" 300 PNone empty_world);
    [reflexivity|reflexivity|discriminate].
Defined.

Lemma create_snapshot_rejects_scope_witness :
  ((PStr "z" <> PNone /\ PStr "r" <> PNone) \/ (PStr "z" = PNone /\ PStr "r" = PNone))
  /\ net (snd (create_snapshot sample_env (PStr "p") "boot-disk" "snap"
                 (PStr "z") (PStr "r") PNone PNone empty_world))
     = net empty_world.
Proof.
  split; [left; split; discriminate|].
  apply (create_snapshot_rejects_scope sample_env (PStr "p") "boot-disk" "snap"
           (PStr "z") (PStr "r") PNone PNone empty_world).
  left; split; discriminate.
Defined.

Lemma batch_attempts_every_disk_witness :
  list_disks sample_env (PStr "p") (PStr "z") PNone
    (log_call (CallCreateAll (PStr "p") (PStr "z")) empty_world)
    = (Return sample_disks,
       World [NewClient DisksClient; DisksList (PStr "p") (PStr "z")] 0
             [CallCreateAll (PStr "p") (PStr "z");
              CallListDisks (PStr "p") (PStr "z") PNone] [] [])
  /\ fst (create_snapshots_for_all_disks sample_env (PStr "p") (PStr "z") empty_world)
     = Return tt.
Proof.
  split; [reflexivity|].
  eapply (batch_attempts_every_disk sample_env (PStr "p") (PStr "z") empty_world).
  reflexivity.
Defined.

Lemma snapshot_names_follow_rule_witness :
  list_disks sample_env (PStr "p") (PStr "z") PNone
    (log_call (CallCreateAll (PStr "p") (PStr "z")) empty_world)
    = (Return sample_disks,
       World [NewClient DisksClient; DisksList (PStr "p") (PStr "z")] 0
             [CallCreateAll (PStr "p") (PStr "z");
              CallListDisks (PStr "p") (PStr "z") PNone] [] [])
  /\ 1000 <= year (now sample_env 1) <= 9999
  /\ snapshot_attempts
       (calls (snd (create_snapshots_for_all_disks sample_env (PStr "p") (PStr "z")
                      empty_world)))
     = [("d1", spec_snapshot_name "d1" March 2024);
        ("boot-disk", spec_snapshot_name "boot-disk" March 2024)].
Proof.
  split; [reflexivity|]. split; [split; discriminate|].
  apply (snapshot_names_follow_rule sample_env (PStr "p") (PStr "z") empty_world
           sample_disks _ eq_refl).
  split; discriminate.
Defined.

Lemma main_rejects_missing_fields_witness :
  list_nonempty (get_data zoneless_request) = true
  /\ get_json zoneless_request = PDict [("project", PStr "p")]
  /\ [("project", PStr "p")] <> []
  /\ (absent_or_empty "project" [("project", PStr "p")]
      \/ absent_or_empty "zone" [("project", PStr "p")])
  /\ fst (main sample_env zoneless_request empty_world)
     = Return (error_response 400 "Missing 'project' or 'zone' in request").
Proof.
  split; [reflexivity|]. split; [reflexivity|]. split; [discriminate|].
  split; [right; left; reflexivity|].
  apply (main_rejects_missing_fields sample_env zoneless_request
           [("project", PStr "p")] empty_world);
    [reflexivity|reflexivity|discriminate|right; left; reflexivity].
Defined.

(** The empty object [{}] is a JSON object without [project] and without
    [zone], yet the handler answers "Invalid JSON payload": an empty dict
    tests false at the payload check, before the fields are looked at. *)
Lemma empty_object_answered_invalid_json :
  list_nonempty (get_data empty_object_request) = true
  /\ get_json empty_object_request = PDict []
  /\ absent_or_empty "project" [] /\ absent_or_empty "zone" []
  /\ fst (main sample_env empty_object_request empty_world)
     = Return (error_response 400 "Invalid JSON payload")
  /\ fst (main sample_env empty_object_request empty_world)
     <> Return (error_response 400 "Missing 'project' or 'zone' in request").
Proof.
  repeat split; try (left; reflexivity). discriminate.
Qed.

Lemma main_reports_orchestrator_outcome_witness :
  validated sample_request (PStr "p") (PStr "z")
  /\ (fst (main sample_env sample_request empty_world) = Return success_response
      <-> fst (create_snapshots_for_all_disks sample_env (PStr "p") (PStr "z")
                 (received sample_env (PStr "p") (PStr "z") empty_world))
          = Return tt).
Proof.
  assert (Hv : validated sample_request (PStr "p") (PStr "z")).
  { split; [reflexivity|].
    exists [("project", PStr "p"); ("zone", PStr "z")]. repeat split. }
  split; [exact Hv|].
  apply (main_reports_orchestrator_outcome sample_env sample_request
           (PStr "p") (PStr "z") empty_world Hv).
Defined.

(** * Further properties of the module *)

(** ** Operation waiter *)

(** The waiter, case by case. *)
Lemma wait_run (op : operation) (verbose_name : string) (timeout : Z) (w : world) :
  wait_for_extended_operation op verbose_name timeout w
    = let finish (r : result pyval) (lines : list string) :=
        (r, World (net w ++ [OperationResult (op_name op) timeout]) (ticks w)
                  (calls w ++ [CallWait (op_name op) verbose_name timeout])
                  (stderr w ++ lines) (stdout w)) in
      match op_result op timeout with
      | Raise e => finish (Raise e) ["Operation failed: " ++ exn_str e]
      | Return r =>
          if error_code op =? 0 then
            finish (Return r)
              (match warnings op with
               | [] => []
               | _ :: _ => ("Warnings during " ++ verbose_name ++ ":" ++ newline)
                           :: map warning_line (warnings op)
               end)
          else
            finish (Raise (match op_exception op with
                           | Some e => e
                           | None => Exn RuntimeError (error_message op)
                           end))
              ["Error during " ++ verbose_name ++ ": [Code: "
                 ++ str_int (error_code op) ++ "]: " ++ error_message op;
               "Operation ID: " ++ op_name op]
      end.
Proof.
  unfold wait_for_extended_operation. run.
  destruct (op_result op timeout); simpl; [|reflexivity].
  destruct (error_code op =? 0); simpl.
  - destruct (warnings op) as [|wn ws]; simpl.
    + rewrite app_nil_r. reflexivity.
    + rewrite print_warnings_run. simpl. rewrite <- app_assoc. reflexivity.
  - rewrite <- app_assoc. reflexivity.
Qed.

(** X1: when [operation.result] raises -- a timeout, for one -- the waiter
    writes one line "Operation failed: " followed by the exception text to
    the error stream and raises that same exception again; the error code and
    the warnings of the operation are not looked at. *)
Theorem wait_reraises_wait_failure
    (op : operation) (verbose_name : string) (timeout : Z) (e : exn) (w : world) :
  op_result op timeout = Raise e ->
  fst (wait_for_extended_operation op verbose_name timeout w) = Raise e
  /\ stderr (snd (wait_for_extended_operation op verbose_name timeout w))
     = List.app (stderr w) ["Operation failed: " ++ exn_str e].
Proof.
  intros Hres. rewrite wait_run, Hres. split; reflexivity.
Qed.

Lemma wait_reraises_wait_failure_witness :
  op_result timed_out_operation 300
    = Raise (Exn (OtherError "TimeoutError") "operation timed out")
  /\ stderr (snd (wait_for_extended_operation timed_out_operation "operation" 300
                    empty_world))
     = ["Operation failed: operation timed out"].
Proof.
  split; [reflexivity|].
  apply (wait_reraises_wait_failure timed_out_operation "operation" 300
           (Exn (OtherError "TimeoutError") "operation timed out") empty_world).
  reflexivity.
Defined.

(** X2: the waiter returns a result exactly when [operation.result] returned
    it and no error code is set; in every other case it raises. *)
Theorem wait_returns_iff
    (op : operation) (verbose_name : string) (timeout : Z) (r : pyval) (w : world) :
  fst (wait_for_extended_operation op verbose_name timeout w) = Return r
  <-> op_result op timeout = Return r /\ error_code op = 0.
Proof.
  rewrite wait_run. cbv zeta.
  destruct (op_result op timeout) as [r'|e]; simpl.
  - destruct (error_code op =? 0) eqn:Hc; simpl.
    + apply Z.eqb_eq in Hc. split; [intros H; split; congruence|intros [H _]; exact H].
    + apply Z.eqb_neq in Hc. split; [discriminate|intros [_ H]; contradiction].
  - split; [discriminate|intros [H _]; discriminate].
Qed.

(** X3: an operation that completes with no error code and no warnings
    leaves the error stream as it was. *)
Theorem wait_silent_when_clean
    (op : operation) (verbose_name : string) (timeout : Z) (r : pyval) (w : world) :
  op_result op timeout = Return r ->
  error_code op = 0 ->
  warnings op = [] ->
  fst (wait_for_extended_operation op verbose_name timeout w) = Return r
  /\ stderr (snd (wait_for_extended_operation op verbose_name timeout w)) = stderr w.
Proof.
  intros Hres Hcode Hw. rewrite wait_run, Hres, Hcode, Hw. simpl.
  rewrite app_nil_r. split; reflexivity.
Qed.

Lemma wait_silent_when_clean_witness :
  op_result clean_operation 300 = Return PNone
  /\ error_code clean_operation = 0
  /\ warnings clean_operation = []
  /\ stderr (snd (wait_for_extended_operation clean_operation "operation" 300
                    empty_world))
     = stderr empty_world.
Proof.
  split; [reflexivity|]. split; [reflexivity|]. split; [reflexivity|].
  apply (wait_silent_when_clean clean_operation "operation" 300 PNone empty_world);
    reflexivity.
Defined.

(** X4: whatever the operation does, the waiter makes exactly one provider
    call, the wait on the operation with the timeout it was given, and never
    writes to the standard output nor reads the clock. *)
Theorem wait_single_provider_call
    (op : operation) (verbose_name : string) (timeout : Z) (w : world) :
  net (snd (wait_for_extended_operation op verbose_name timeout w))
    = (net w ++ [OperationResult (op_name op) timeout])%list
  /\ stdout (snd (wait_for_extended_operation op verbose_name timeout w)) = stdout w
  /\ ticks (snd (wait_for_extended_operation op verbose_name timeout w)) = ticks w.
Proof.
  rewrite wait_run. cbv zeta.
  destruct (op_result op timeout); [destruct (error_code op =? 0)|];
    repeat split.
Qed.

(** ** Disk lister *)

(** X5: with no usable [zone] and a non-empty [region], the lister builds the
    regional client and issues the regional listing; the zonal client is not
    used.  A failure to build the client is raised before any listing call,
    a failure of the listing or of the iteration over its pages is raised,
    and otherwise the disks are returned in the order of the pages. *)
Theorem list_disks_regional
    (E : env) (project zone region : pyval) (w : world) :
  truthy zone = false ->
  truthy region = true ->
  list_disks E project zone region w
    = let h1 := (net w ++ [NewClient RegionDisksClient])%list in
      let logged h :=
        World h (ticks w) (calls w ++ [CallListDisks project zone region])
              (stderr w) (stdout w) in
      match new_client E (net w) RegionDisksClient with
      | Some e => (Raise e, logged h1)
      | None =>
          (match region_disks_list E h1 project region with
           | Return p => py_list p
           | Raise e => Raise e
           end,
           logged (h1 ++ [RegionDisksList project region])%list)
      end.
Proof.
  intros Hz Hr. unfold list_disks. rewrite Hz, Hr. run.
  destruct (new_client E (net w) RegionDisksClient); simpl; [reflexivity|].
  destruct (region_disks_list E _ project region); reflexivity.
Qed.

Lemma list_disks_regional_witness :
  truthy PNone = false /\ truthy (PStr "r") = true
  /\ list_disks regional_env (PStr "p") PNone (PStr "r") empty_world
     = (Return [Disk "shared" "regions/r/disks/shared"],
        World [NewClient RegionDisksClient; RegionDisksList (PStr "p") (PStr "r")] 0
              [CallListDisks (PStr "p") PNone (PStr "r")] [] []).
Proof.
  split; [reflexivity|]. split; [reflexivity|].
  exact (list_disks_regional regional_env (PStr "p") PNone (PStr "r") empty_world
           eq_refl eq_refl).
Defined.

(** X6: a [zone] and a [region] that test false -- [None] or the empty
    string alike -- count as not supplied: the lister raises [ValueError] and
    makes no provider call. *)
Theorem list_disks_rejects_empty_scope
    (E : env) (project zone region : pyval) (w : world) :
  truthy zone = false ->
  truthy region = false ->
  fst (list_disks E project zone region w)
    = Raise (Exn ValueError "Either `zone` or `region` must be provided.")
  /\ net (snd (list_disks E project zone region w)) = net w.
Proof.
  intros Hz Hr. unfold list_disks. rewrite Hz, Hr. run. split; reflexivity.
Qed.

Lemma list_disks_rejects_empty_scope_witness :
  truthy (PStr "") = false /\ truthy (PStr "") = false
  /\ fst (list_disks sample_env (PStr "p") (PStr "") (PStr "") empty_world)
     = Raise (Exn ValueError "Either `zone` or `region` must be provided.").
Proof.
  split; [reflexivity|]. split; [reflexivity|].
  apply (list_disks_rejects_empty_scope sample_env (PStr "p") (PStr "") (PStr "")
           empty_world); reflexivity.
Defined.

(** X7: with a non-empty [zone], the lister returns a list of disks exactly
    when the zonal client could be built, the listing call returned a pager
    and the iteration over the pager reached its end; a failure at any of the
    three stages makes the lister raise, and no partial list is returned. *)
Theorem list_disks_returns_iff
    (E : env) (project zone region : pyval) (w : world) (ds : list disk) :
  truthy zone = true ->
  (fst (list_disks E project zone region w) = Return ds
   <-> new_client E (net w) DisksClient = None
       /\ exists p,
            disks_list E (net w ++ [NewClient DisksClient])%list project zone = Return p
            /\ py_list p = Return ds).
Proof.
  intros Hz. rewrite (list_disks_zonal E project zone region w Hz).
  unfold zonal_listing. cbv zeta.
  destruct (new_client E (net w) DisksClient) as [e|]; cbn [fst].
  - split; [discriminate|intros [H _]; discriminate].
  - destruct (disks_list E (net w ++ [NewClient DisksClient])%list project zone)
      as [p|e].
    + split.
      * intros H. split; [reflexivity|]. exists p. split; [reflexivity|exact H].
      * intros (_ & p' & Hp & Hl). inversion Hp; subst. exact Hl.
    + split; [discriminate|intros (_ & p & Hp & _); discriminate].
Qed.

Lemma list_disks_returns_iff_witness :
  truthy (PStr "z") = true
  /\ (fst (list_disks sample_env (PStr "p") (PStr "z") PNone empty_world)
        = Return sample_disks
      <-> new_client sample_env (net empty_world) DisksClient = None
          /\ exists p,
               disks_list sample_env (net empty_world ++ [NewClient DisksClient])%list
                 (PStr "p") (PStr "z") = Return p
               /\ py_list p = Return sample_disks).
Proof.
  split; [reflexivity|].
  apply (list_disks_returns_iff sample_env (PStr "p") (PStr "z") PNone empty_world
           sample_disks).
  reflexivity.
Defined.

(** ** Snapshot creator *)

Lemma is_none_false (v : pyval) : v <> PNone -> is_none v = false.
Proof. destruct v; simpl; congruence. Qed.

(** X8: the zonal path, step by step.  With only [zone] set, when the
    clients can be built, the disk is found and the operation completes
    without error code, the creator has made six provider calls in this
    order: zonal client, disk fetch in the disk-hosting project, snapshot
    client, insert in the snapshot project of a request carrying the disk's
    link, the requested name and the storage location if one was given, wait
    with a timeout of 300, and fetch of the snapshot by name.  Its result is
    the outcome of that final fetch. *)
Theorem create_snapshot_zonal_success
    (E : env) (project : pyval) (d s : string)
    (zone location disk_project : pyval) (w : world)
    (dk : disk) (op : operation) (r : pyval) :
  let dp := if is_none disk_project then project else disk_project in
  let request :=
    Snapshot (self_link dk) s (if truthy location then [location] else []) in
  let h1 := (net w ++ [NewClient DisksClient])%list in
  let h2 := (h1 ++ [DisksGet dp zone d])%list in
  let h3 := (h2 ++ [NewClient SnapshotsClient])%list in
  let h4 := (h3 ++ [SnapshotsInsert project request])%list in
  let h5 := (h4 ++ [OperationResult (op_name op) 300])%list in
  zone <> PNone ->
  new_client E (net w) DisksClient = None ->
  disks_get E h1 dp zone d = Return dk ->
  new_client E h2 SnapshotsClient = None ->
  snapshots_insert E h3 project request = Return op ->
  op_result op 300 = Return r ->
  error_code op = 0 ->
  fst (create_snapshot E project d s zone PNone location disk_project w)
    = snapshots_get E h5 project s
  /\ net (snd (create_snapshot E project d s zone PNone location disk_project w))
     = (h5 ++ [SnapshotsGet project s])%list.
Proof.
  intros dp request h1 h2 h3 h4 h5 Hz Hc1 Hget Hc2 Hins Hres Hcode.
  apply is_none_false in Hz. subst dp request h1 h2 h3 h4 h5.
  unfold create_snapshot. rewrite Hz. run.
  rewrite Hc1. simpl. rewrite Hget. simpl. rewrite Hc2. simpl.
  rewrite Hins. simpl.
  rewrite wait_run, Hres, Hcode. simpl.
  split; reflexivity.
Qed.

Lemma create_snapshot_zonal_success_witness :
  PStr "z" <> PNone
  /\ fst (create_snapshot sample_env (PStr "p") "boot-disk" "snap"
            (PStr "z") PNone PNone PNone empty_world)
     = Return (Snapshot "zones/z/disks/boot-disk" "snap" []).
Proof.
  split; [discriminate|].
  apply (create_snapshot_zonal_success sample_env (PStr "p") "boot-disk" "snap"
           (PStr "z") PNone PNone empty_world
           (Disk "boot-disk" "zones/z/disks/boot-disk") warned_operation PNone);
    try reflexivity.
  discriminate.
Defined.

(** X9: leaving [disk_project] out is the same as passing the snapshot
    project for it: the result, the provider calls and both output streams
    are identical. *)
Theorem create_snapshot_default_disk_project
    (E : env) (project : pyval) (d s : string)
    (zone region location : pyval) (w : world) :
  fst (create_snapshot E project d s zone region location PNone w)
    = fst (create_snapshot E project d s zone region location project w)
  /\ net (snd (create_snapshot E project d s zone region location PNone w))
     = net (snd (create_snapshot E project d s zone region location project w))
  /\ stderr (snd (create_snapshot E project d s zone region location PNone w))
     = stderr (snd (create_snapshot E project d s zone region location project w))
  /\ stdout (snd (create_snapshot E project d s zone region location PNone w))
     = stdout (snd (create_snapshot E project d s zone region location project w)).
Proof.
  unfold create_snapshot. run.
  assert ((if is_none project then project else project) = project) as ->
    by (destruct (is_none project); reflexivity).
  destruct (is_none zone && is_none region)%bool; simpl; [repeat split|].
  destruct (negb (is_none zone) && negb (is_none region))%bool; simpl;
    [repeat split|].
  destruct (negb (is_none zone)); simpl.
  - destruct (new_client E (net w) DisksClient); simpl; [repeat split|].
    destruct (disks_get E _ project zone d); simpl; [|repeat split].
    destruct (new_client E _ SnapshotsClient); simpl; [repeat split|].
    destruct (snapshots_insert E _ project _) as [op|e]; simpl; [|repeat split].
    rewrite !wait_run. cbv zeta.
    destruct (op_result op 300); [destruct (error_code op =? 0)|];
      simpl; repeat split.
  - destruct (new_client E (net w) RegionDisksClient); simpl; [repeat split|].
    destruct (region_disks_get E _ project region d); simpl; [|repeat split].
    destruct (new_client E _ SnapshotsClient); simpl; [repeat split|].
    destruct (snapshots_insert E _ project _) as [op|e]; simpl; [|repeat split].
    rewrite !wait_run. cbv zeta.
    destruct (op_result op 300); [destruct (error_code op =? 0)|];
      simpl; repeat split.
Qed.

Lemma snapshot_inserts_app (h h' : list net_event) :
  snapshot_inserts (h ++ h') = (snapshot_inserts h + snapshot_inserts h')%nat.
Proof.
  induction h as [|ev h IH]; simpl; [reflexivity|].
  destruct ev; simpl; rewrite IH; reflexivity.
Qed.





(** X12: with only [region] set, the disk is fetched through the regional
    client and the zonal client is not used; the rest of the path is that of
    a zonal disk. *)
Theorem create_snapshot_regional_success
    (E : env) (project : pyval) (d s : string)
    (region location disk_project : pyval) (w : world)
    (dk : disk) (op : operation) (r : pyval) :
  let dp := if is_none disk_project then project else disk_project in
  let request :=
    Snapshot (self_link dk) s (if truthy location then [location] else []) in
  let h1 := (net w ++ [NewClient RegionDisksClient])%list in
  let h2 := (h1 ++ [RegionDisksGet dp region d])%list in
  let h3 := (h2 ++ [NewClient SnapshotsClient])%list in
  let h4 := (h3 ++ [SnapshotsInsert project request])%list in
  let h5 := (h4 ++ [OperationResult (op_name op) 300])%list in
  region <> PNone ->
  new_client E (net w) RegionDisksClient = None ->
  region_disks_get E h1 dp region d = Return dk ->
  new_client E h2 SnapshotsClient = None ->
  snapshots_insert E h3 project request = Return op ->
  op_result op 300 = Return r ->
  error_code op = 0 ->
  fst (create_snapshot E project d s PNone region location disk_project w)
    = snapshots_get E h5 project s
  /\ net (snd (create_snapshot E project d s PNone region location disk_project w))
     = (h5 ++ [SnapshotsGet project s])%list.
Proof.
  intros dp request h1 h2 h3 h4 h5 Hr Hc1 Hget Hc2 Hins Hres Hcode.
  apply is_none_false in Hr. subst dp request h1 h2 h3 h4 h5.
  unfold create_snapshot. rewrite Hr. run.
  rewrite Hc1. simpl. rewrite Hget. simpl. rewrite Hc2. simpl.
  rewrite Hins. simpl.
  rewrite wait_run, Hres, Hcode. simpl.
  split; reflexivity.
Qed.

Lemma create_snapshot_regional_success_witness :
  PStr "r" <> PNone
  /\ fst (create_snapshot regional_env (PStr "p") "shared" "snap"
            PNone (PStr "r") (PStr "eu") PNone empty_world)
     = Return (Snapshot "zones/z/disks/boot-disk" "snap" [])
  /\ net (snd (create_snapshot regional_env (PStr "p") "shared" "snap"
                 PNone (PStr "r") (PStr "eu") PNone empty_world))
     = [NewClient RegionDisksClient;
        RegionDisksGet (PStr "p") (PStr "r") "shared";
        NewClient SnapshotsClient;
        SnapshotsInsert (PStr "p")
          (Snapshot "regions/r/disks/shared" "snap" [PStr "eu"]);
        OperationResult "operation-1" 300;
        SnapshotsGet (PStr "p") "snap"].
Proof.
  split; [discriminate|].
  apply (create_snapshot_regional_success regional_env (PStr "p") "shared" "snap"
           (PStr "r") (PStr "eu") PNone empty_world
           (Disk "shared" "regions/r/disks/shared") warned_operation PNone);
    try reflexivity.
  discriminate.
Defined.

Lemma create_snapshot_insert_bound
    (E : env) (project : pyval) (d s : string)
    (zone region location disk_project : pyval) (w : world) :
  (snapshot_inserts (net w)
   <= snapshot_inserts
        (net (snd (create_snapshot E project d s zone region location disk_project w)))
   <= snapshot_inserts (net w) + 1)%nat.
Proof.
  unfold create_snapshot. run.
  destruct (is_none zone && is_none region)%bool; simpl; [lia|].
  destruct (negb (is_none zone) && negb (is_none region))%bool; simpl; [lia|].
  destruct (negb (is_none zone)); simpl.
  - destruct (new_client E (net w) DisksClient); simpl;
      [rewrite !snapshot_inserts_app; simpl; lia|].
    destruct (disks_get E _ _ zone d); simpl;
      [|rewrite !snapshot_inserts_app; simpl; lia].
    destruct (new_client E _ SnapshotsClient); simpl;
      [rewrite !snapshot_inserts_app; simpl; lia|].
    destruct (snapshots_insert E _ project _) as [op|e]; simpl;
      [|rewrite !snapshot_inserts_app; simpl; lia].
    rewrite wait_run. cbv zeta.
    destruct (op_result op 300); [destruct (error_code op =? 0)|];
      simpl; rewrite !snapshot_inserts_app; simpl; lia.
  - destruct (new_client E (net w) RegionDisksClient); simpl;
      [rewrite !snapshot_inserts_app; simpl; lia|].
    destruct (region_disks_get E _ _ region d); simpl;
      [|rewrite !snapshot_inserts_app; simpl; lia].
    destruct (new_client E _ SnapshotsClient); simpl;
      [rewrite !snapshot_inserts_app; simpl; lia|].
    destruct (snapshots_insert E _ project _) as [op|e]; simpl;
      [|rewrite !snapshot_inserts_app; simpl; lia].
    rewrite wait_run. cbv zeta.
    destruct (op_result op 300); [destruct (error_code op =? 0)|];
      simpl; rewrite !snapshot_inserts_app; simpl; lia.
Qed.

(** X13: one call of the creator asks the provider for at most one snapshot,
    whatever its arguments and whatever the provider answers, and never
    retries an insert. *)
Theorem create_snapshot_inserts_at_most_once
    (E : env) (project : pyval) (d s : string)
    (zone region location disk_project : pyval) (w : world) :
  (snapshot_inserts
     (net (snd (create_snapshot E project d s zone region location disk_project w)))
   <= snapshot_inserts (net w) + 1)%nat.
Proof.
  apply create_snapshot_insert_bound.
Qed.

(** ** Batch orchestrator *)

Lemma list_disks_no_insert (E : env) (project zone region : pyval) (w : world) :
  snapshot_inserts (net (snd (list_disks E project zone region w)))
    = snapshot_inserts (net w).
Proof.
  unfold list_disks. run.
  destruct (truthy zone); [|destruct (truthy region)]; simpl; try reflexivity.
  - destruct (new_client E (net w) DisksClient); simpl;
      [rewrite !snapshot_inserts_app; simpl; lia|].
    destruct (disks_list E _ project zone); simpl;
      rewrite !snapshot_inserts_app; simpl; lia.
  - destruct (new_client E (net w) RegionDisksClient); simpl;
      [rewrite !snapshot_inserts_app; simpl; lia|].
    destruct (region_disks_list E _ project region); simpl;
      rewrite !snapshot_inserts_app; simpl; lia.
Qed.

Lemma for_each_inserts (E : env) (project zone : pyval) (m y : string)
    (ds : list disk) (w : world) :
  (snapshot_inserts (net (snd (for_each ds (snapshot_disk E project zone m y) w)))
   <= snapshot_inserts (net w) + List.length ds)%nat.
Proof.
  revert w. induction ds as [|d ds IH]; intros w; simpl; [lia|].
  unfold bind. rewrite snapshot_disk_run. cbv zeta.
  pose proof (create_snapshot_insert_bound E project (disk_name d)
                (patching_name (disk_name d) m y) zone PNone PNone PNone w) as Hone.
  match goal with
  | |- context [for_each ds ?f ?w2] => specialize (IH w2)
  end.
  cbn [net] in IH. lia.
Qed.

(** X14: a batch asks the provider for at most as many snapshots as the
    listing returned disks. *)
Theorem batch_inserts_bounded
    (E : env) (project zone : pyval) (w0 : world) (ds : list disk) (w1 : world) :
  list_disks E project zone PNone (log_call (CallCreateAll project zone) w0)
    = (Return ds, w1) ->
  (snapshot_inserts (net (snd (create_snapshots_for_all_disks E project zone w0)))
   <= snapshot_inserts (net w0) + List.length ds)%nat.
Proof.
  intros Hlist.
  pose proof (list_disks_no_insert E project zone PNone
                (log_call (CallCreateAll project zone) w0)) as Hno.
  rewrite orchestrator_unfold. cbv zeta. rewrite Hlist in *. cbn [fst snd] in *.
  match goal with
  | |- context [for_each ds ?f ?w2] =>
      pose proof (for_each_inserts E project zone
                    (lower (strftime_B (now E (ticks w0))))
                    (strftime_Y (now E (S (ticks w0)))) ds w2) as Hloop
  end.
  cbn [net log_call] in *. lia.
Qed.

Lemma batch_inserts_bounded_witness :
  list_disks sample_env (PStr "p") (PStr "z") PNone
    (log_call (CallCreateAll (PStr "p") (PStr "z")) empty_world)
    = (Return sample_disks,
       World [NewClient DisksClient; DisksList (PStr "p") (PStr "z")] 0
             [CallCreateAll (PStr "p") (PStr "z");
              CallListDisks (PStr "p") (PStr "z") PNone] [] [])
  /\ (snapshot_inserts
        (net (snd (create_snapshots_for_all_disks sample_env (PStr "p") (PStr "z")
                     empty_world)))
      <= snapshot_inserts (net empty_world) + List.length sample_disks)%nat.
Proof.
  split; [reflexivity|].
  apply (batch_inserts_bounded sample_env (PStr "p") (PStr "z") empty_world
           sample_disks _ eq_refl).
Defined.

(** X15: when the listing fails, the orchestrator raises the listing's
    exception and has done nothing else: the clock was not read, nothing was
    printed, no snapshot creation was attempted and no snapshot requested. *)
Theorem batch_listing_failure
    (E : env) (project zone : pyval) (w0 : world) (e : exn) (w1 : world) :
  list_disks E project zone PNone (log_call (CallCreateAll project zone) w0)
    = (Raise e, w1) ->
  create_snapshots_for_all_disks E project zone w0 = (Raise e, w1)
  /\ ticks w1 = ticks w0 /\ stdout w1 = stdout w0 /\ stderr w1 = stderr w0
  /\ snapshot_attempts (calls w1) = snapshot_attempts (calls w0)
  /\ snapshot_inserts (net w1) = snapshot_inserts (net w0).
Proof.
  intros Hlist.
  pose proof (list_disks_frame E project zone PNone
                (log_call (CallCreateAll project zone) w0)) as (Hso & Hse & Ht & Hca).
  pose proof (list_disks_no_insert E project zone PNone
                (log_call (CallCreateAll project zone) w0)) as Hno.
  rewrite orchestrator_unfold. cbv zeta. rewrite Hlist in *. cbn [fst snd] in *.
  repeat split; try assumption.
  rewrite Hca. simpl. rewrite !snapshot_attempts_app. simpl.
  rewrite !app_nil_r. reflexivity.
Qed.

Lemma batch_listing_failure_witness :
  list_disks failed_listing_env (PStr "p") (PStr "z") PNone
    (log_call (CallCreateAll (PStr "p") (PStr "z")) empty_world)
    = (Raise (Exn (OtherError "Forbidden") "permission denied"),
       World [NewClient DisksClient; DisksList (PStr "p") (PStr "z")] 0
             [CallCreateAll (PStr "p") (PStr "z");
              CallListDisks (PStr "p") (PStr "z") PNone] [] [])
  /\ fst (create_snapshots_for_all_disks failed_listing_env (PStr "p") (PStr "z")
            empty_world)
     = Raise (Exn (OtherError "Forbidden") "permission denied").
Proof.
  split; [reflexivity|].
  pose proof (batch_listing_failure failed_listing_env (PStr "p") (PStr "z")
                empty_world _ _ eq_refl) as [H _].
  rewrite H. reflexivity.
Defined.

(** X16: a batch reads the clock exactly twice, once for the month and once
    for the year, however many disks were listed: the suffix is computed
    before the loop and shared by all the snapshots of the batch. *)
Theorem batch_reads_clock_twice
    (E : env) (project zone : pyval) (w0 : world) (ds : list disk) (w1 : world) :
  list_disks E project zone PNone (log_call (CallCreateAll project zone) w0)
    = (Return ds, w1) ->
  ticks (snd (create_snapshots_for_all_disks E project zone w0)) = S (S (ticks w0)).
Proof.
  intros Hlist.
  rewrite orchestrator_unfold. cbv zeta. rewrite Hlist. cbn [fst snd].
  match goal with
  | |- context [for_each ds ?f ?w2] =>
      destruct (for_each_snapshot_disk E project zone
                  (lower (strftime_B (now E (ticks w0))))
                  (strftime_Y (now E (S (ticks w0)))) ds w2)
        as (w' & lines & Hrun & _ & _ & Ht & _)
  end.
  rewrite Hrun. cbn [fst snd ticks] in *. exact Ht.
Qed.

Lemma batch_reads_clock_twice_witness :
  list_disks sample_env (PStr "p") (PStr "z") PNone
    (log_call (CallCreateAll (PStr "p") (PStr "z")) empty_world)
    = (Return sample_disks,
       World [NewClient DisksClient; DisksList (PStr "p") (PStr "z")] 0
             [CallCreateAll (PStr "p") (PStr "z");
              CallListDisks (PStr "p") (PStr "z") PNone] [] [])
  /\ ticks (snd (create_snapshots_for_all_disks sample_env (PStr "p") (PStr "z")
                   empty_world)) = 2%nat.
Proof.
  split; [reflexivity|].
  apply (batch_reads_clock_twice sample_env (PStr "p") (PStr "z") empty_world
           sample_disks _ eq_refl).
Defined.

(** X17: when the listing returns no disk, the orchestrator returns
    normally without a further provider call: nothing is printed and no
    snapshot creation is attempted. *)
Theorem batch_empty_listing
    (E : env) (project zone : pyval) (w0 w1 : world) :
  list_disks E project zone PNone (log_call (CallCreateAll project zone) w0)
    = (Return [], w1) ->
  fst (create_snapshots_for_all_disks E project zone w0) = Return tt
  /\ net (snd (create_snapshots_for_all_disks E project zone w0)) = net w1
  /\ stdout (snd (create_snapshots_for_all_disks E project zone w0)) = stdout w0
  /\ stderr (snd (create_snapshots_for_all_disks E project zone w0)) = stderr w0
  /\ snapshot_attempts (calls (snd (create_snapshots_for_all_disks E project zone w0)))
     = snapshot_attempts (calls w0).
Proof.
  intros Hlist.
  pose proof (list_disks_frame E project zone PNone
                (log_call (CallCreateAll project zone) w0)) as (Hso & Hse & Ht & Hca).
  rewrite orchestrator_unfold. cbv zeta. rewrite Hlist in *.
  cbn [fst snd for_each ret net stdout stderr calls] in *.
  repeat split; try assumption.
  rewrite Hca. simpl. rewrite !snapshot_attempts_app. simpl.
  rewrite !app_nil_r. reflexivity.
Qed.

Lemma batch_empty_listing_witness :
  list_disks empty_listing_env (PStr "p") (PStr "z") PNone
    (log_call (CallCreateAll (PStr "p") (PStr "z")) empty_world)
    = (Return [],
       World [NewClient DisksClient; DisksList (PStr "p") (PStr "z")] 0
             [CallCreateAll (PStr "p") (PStr "z");
              CallListDisks (PStr "p") (PStr "z") PNone] [] [])
  /\ fst (create_snapshots_for_all_disks empty_listing_env (PStr "p") (PStr "z")
            empty_world) = Return tt.
Proof.
  split; [reflexivity|].
  eapply (batch_empty_listing empty_listing_env (PStr "p") (PStr "z") empty_world).
  reflexivity.
Defined.

(** X18: a listing called without [region] can only return if [zone] is
    non-empty, so inside a batch the creator's scope check never fires:
    every attempt gets as far as the provider, starting with the zonal
    client. *)
Theorem batch_attempts_reach_provider
    (E : env) (project zone : pyval) (w0 : world) (ds : list disk) (w1 : world) :
  list_disks E project zone PNone w0 = (Return ds, w1) ->
  truthy zone = true
  /\ forall d s w,
       exists rest,
         net (snd (create_snapshot E project d s zone PNone PNone PNone w))
           = (net w ++ NewClient DisksClient :: rest)%list.
Proof.
  intros Hlist.
  assert (Hz : truthy zone = true).
  { destruct (truthy zone) eqn:Hz; [reflexivity|].
    unfold list_disks in Hlist. rewrite Hz in Hlist.
    unfold bind, enter, raise in Hlist. simpl in Hlist. discriminate. }
  split; [exact Hz|]. intros d s w.
  assert (Hn : is_none zone = false) by (destruct zone; simpl in *; congruence).
  unfold create_snapshot. rewrite Hn. run.
  destruct (new_client E (net w) DisksClient); simpl; [exists []; reflexivity|].
  destruct (disks_get E _ project zone d); simpl;
    [|eexists; rewrite <- !app_assoc; reflexivity].
  destruct (new_client E _ SnapshotsClient); simpl;
    [eexists; rewrite <- !app_assoc; reflexivity|].
  destruct (snapshots_insert E _ project _) as [op|e]; simpl;
    [|eexists; rewrite <- !app_assoc; reflexivity].
  rewrite wait_run. cbv zeta.
  destruct (op_result op 300); [destruct (error_code op =? 0)|];
    simpl; eexists; rewrite <- !app_assoc; reflexivity.
Qed.

Lemma batch_attempts_reach_provider_witness :
  list_disks sample_env (PStr "p") (PStr "z") PNone empty_world
    = (Return sample_disks,
       World [NewClient DisksClient; DisksList (PStr "p") (PStr "z")] 0
             [CallListDisks (PStr "p") (PStr "z") PNone] [] [])
  /\ truthy (PStr "z") = true.
Proof.
  split; [reflexivity|].
  eapply (batch_attempts_reach_provider sample_env (PStr "p") (PStr "z") empty_world).
  reflexivity.
Defined.

Lemma length_append (s t : string) :
  String.length (s ++ t) = (String.length s + String.length t)%nat.
Proof.
  induction s as [|c s IH]; simpl; [reflexivity|]. rewrite IH. reflexivity.
Qed.

Lemma append_cancel_r (s s' t : string) : s ++ t = s' ++ t -> s = s'.
Proof.
  revert s'. induction s as [|c s IH]; intros [|c' s'] H; simpl in H.
  - reflexivity.
  - apply (f_equal String.length) in H. simpl in H.
    rewrite length_append in H. lia.
  - apply (f_equal String.length) in H. simpl in H.
    rewrite length_append in H. lia.
  - inversion H. f_equal. apply IH. assumption.
Qed.

(** X19: within a batch, where the month and year are fixed, different disk
    names give different snapshot names. *)
Theorem patching_name_injective (d d' m y : string) :
  patching_name d m y = patching_name d' m y -> d = d'.
Proof.
  unfold patching_name. apply append_cancel_r.
Qed.

Lemma patching_name_injective_witness :
  patching_name "boot-disk" "march" "2024" = patching_name "boot-disk" "march" "2024"
  /\ "boot-disk" = "boot-disk".
Proof.
  split; [reflexivity|].
  apply (patching_name_injective "boot-disk" "boot-disk" "march" "2024").
  reflexivity.
Defined.

(** ** Request handler *)

(** X20: a request with an empty body is answered 400 "Empty request body"
    at once: the payload is not parsed, nothing is logged and nothing is
    called. *)
Theorem main_rejects_empty_body (E : env) (req : request) (w : world) :
  get_data req = [] ->
  main E req w = (Return (error_response 400 "Empty request body"), w).
Proof.
  intros Hdata. unfold main. rewrite Hdata. reflexivity.
Qed.

Lemma main_rejects_empty_body_witness :
  get_data empty_body_request = []
  /\ main sample_env empty_body_request empty_world
     = (Return (error_response 400 "Empty request body"), empty_world).
Proof.
  split; [reflexivity|].
  apply (main_rejects_empty_body sample_env empty_body_request empty_world).
  reflexivity.
Defined.

(** X21: a non-empty body whose payload tests false -- a body that is not
    JSON, [null], [false], [0], an empty string, array or object -- is
    answered 400 "Invalid JSON payload"; the fields are not looked at,
    nothing is logged and nothing is called. *)
Theorem main_rejects_invalid_payload (E : env) (req : request) (w : world) :
  get_data req <> [] ->
  truthy (get_json req) = false ->
  fst (main E req w) = Return (error_response 400 "Invalid JSON payload")
  /\ snd (main E req w) = w.
Proof.
  intros Hdata Hjson.
  rewrite (main_rejects_falsy_payload E req w); [split; reflexivity| |exact Hjson].
  destruct (get_data req); [congruence|reflexivity].
Qed.

Lemma main_rejects_invalid_payload_witness :
  get_data null_request <> []
  /\ truthy (get_json null_request) = false
  /\ fst (main sample_env null_request empty_world)
     = Return (error_response 400 "Invalid JSON payload").
Proof.
  split; [discriminate|]. split; [reflexivity|].
  apply (main_rejects_invalid_payload sample_env null_request empty_world);
    [discriminate|reflexivity].
Defined.

(** X22: the handler lets an exception escape in one situation only: the
    body is not empty and the payload tests true without being an object.
    For every other request it returns a response. *)
Theorem main_raises_iff (E : env) (req : request) (w : world) :
  (exists e, fst (main E req w) = Raise e)
  <-> list_nonempty (get_data req) = true
      /\ truthy (get_json req) = true
      /\ forall d, get_json req <> PDict d.
Proof.
  split.
  - intros (e & He).
    destruct (list_nonempty (get_data req)) eqn:Hdata.
    + destruct (truthy (get_json req)) eqn:Hjson.
      * split; [reflexivity|]. split; [reflexivity|]. intros d Hd.
        assert (Hne : d <> []) by (intros ->; rewrite Hd in Hjson; discriminate).
        rewrite (main_object E req d w Hdata Hd Hne) in He. cbv zeta in He.
        destruct (negb (truthy (field "project" d)) || negb (truthy (field "zone" d)))%bool;
          [discriminate|].
        destruct (create_snapshots_for_all_disks E (field "project" d)
                    (field "zone" d)
                    (received E (field "project" d) (field "zone" d) w))
          as [[u|e'] w2]; discriminate.
      * rewrite (main_rejects_falsy_payload E req w Hdata Hjson) in He.
        discriminate.
    + unfold main in He. rewrite Hdata in He. discriminate.
  - intros (Hdata & Hjson & Hobj).
    destruct (main_raises_on_non_object E req w Hdata Hjson Hobj) as (msg & Hm).
    eexists. rewrite Hm. reflexivity.
Qed.

(** X23: every response of the handler carries one of the status codes 200,
    400 and 500. *)
Theorem main_status_codes (E : env) (req : request) (w : world) (r : response) :
  fst (main E req w) = Return r ->
  status r = 200 \/ status r = 400 \/ status r = 500.
Proof.
  intros Hr.
  destruct (list_nonempty (get_data req)) eqn:Hdata;
    [|unfold main in Hr; rewrite Hdata in Hr; inversion Hr; auto].
  destruct (truthy (get_json req)) eqn:Hjson;
    [|rewrite (main_rejects_falsy_payload E req w Hdata Hjson) in Hr;
      inversion Hr; auto].
  destruct (get_json req) as [| | | | | |d] eqn:Hd;
    try (destruct (main_raises_on_non_object E req w Hdata) as (msg & Hm);
         [rewrite Hd; exact Hjson|rewrite Hd; discriminate|];
         rewrite Hm in Hr; discriminate).
  assert (Hne : d <> []) by (intros ->; discriminate).
  rewrite (main_object E req d w Hdata Hd Hne) in Hr. cbv zeta in Hr.
  destruct (negb (truthy (field "project" d)) || negb (truthy (field "zone" d)))%bool;
    [inversion Hr; auto|].
  destruct (create_snapshots_for_all_disks E (field "project" d)
              (field "zone" d)
              (received E (field "project" d) (field "zone" d) w))
    as [[u|e'] w2]; inversion Hr; auto.
Qed.

Lemma main_status_codes_witness :
  fst (main sample_env sample_request empty_world) = Return success_response
  /\ (status success_response = 200 \/ status success_response = 400
      \/ status success_response = 500).
Proof.
  split; [reflexivity|].
  apply (main_status_codes sample_env sample_request empty_world success_response).
  reflexivity.
Defined.

(** X24: for a non-empty object payload, the answer is 400 "Missing
    'project' or 'zone' in request" exactly when [project] or [zone] tests
    false -- absent, [null], the empty string, zero, [false], an empty array
    or object.  In that case the handler has logged the received payload and
    done nothing else. *)
Theorem main_missing_iff_falsy_field
    (E : env) (req : request) (d : list (string * pyval)) (w : world) :
  list_nonempty (get_data req) = true ->
  get_json req = PDict d ->
  d <> [] ->
  (fst (main E req w)
     = Return (error_response 400 "Missing 'project' or 'zone' in request")
   <-> truthy (field "project" d) = false \/ truthy (field "zone" d) = false)
  /\ (truthy (field "project" d) = false \/ truthy (field "zone" d) = false ->
      snd (main E req w) = received E (field "project" d) (field "zone" d) w).
Proof.
  intros Hdata Hjson Hd.
  rewrite (main_object E req d w Hdata Hjson Hd). cbv zeta.
  destruct (truthy (field "project" d)) eqn:Hp;
    destruct (truthy (field "zone" d)) eqn:Hz; cbn [negb orb fst snd];
    try (split; [split; [right; reflexivity|reflexivity]|reflexivity]);
    try (split; [split; [left; reflexivity|reflexivity]|reflexivity]).
  destruct (create_snapshots_for_all_disks E (field "project" d)
              (field "zone" d)
              (received E (field "project" d) (field "zone" d) w))
    as [[u|e'] w2]; cbn [fst snd];
    (split; [split; [discriminate|intros [H|H]; discriminate]
            |intros [H|H]; discriminate]).
Qed.

Lemma main_missing_iff_falsy_field_witness :
  list_nonempty (get_data null_zone_request) = true
  /\ get_json null_zone_request = PDict [("project", PStr "p"); ("zone", PNone)]
  /\ [("project", PStr "p"); ("zone", PNone)] <> []
  /\ stderr (snd (main sample_env null_zone_request empty_world))
     = ["Received request payload: project=p, zone=None"].
Proof.
  split; [reflexivity|]. split; [reflexivity|]. split; [discriminate|].
  destruct (main_missing_iff_falsy_field sample_env null_zone_request
              [("project", PStr "p"); ("zone", PNone)] empty_world
              eq_refl eq_refl) as [_ H].
  - discriminate.
  - rewrite H; [reflexivity|right; reflexivity].
Defined.

(** X25: when the orchestrator raises, the handler writes to the error
    stream, as its last line, the very text it returns in the 500 response. *)
Theorem main_failure_logged
    (E : env) (req : request) (project zone : pyval) (w : world) (e : exn) :
  validated req project zone ->
  fst (create_snapshots_for_all_disks E project zone (received E project zone w))
    = Raise e ->
  fst (main E req w)
    = Return (error_response 500 ("Snapshot creation failed: " ++ exn_str e))
  /\ stderr (snd (main E req w))
     = List.app
         (stderr (snd (create_snapshots_for_all_disks E project zone
                         (received E project zone w))))
         ["Snapshot creation failed: " ++ exn_str e].
Proof.
  intros (Hdata & d & Hjson & Hp & Hz & Htp & Htz) Hbatch.
  assert (Hd : d <> []) by (destruct d; [discriminate|congruence]).
  rewrite (main_object E req d w Hdata Hjson Hd). cbv zeta.
  unfold field. rewrite Hp, Hz, Htp, Htz. cbn [negb orb].
  destruct (create_snapshots_for_all_disks E project zone (received E project zone w))
    as [[u|e'] w2]; cbn [fst snd] in *; [discriminate|].
  inversion Hbatch; subst. split; reflexivity.
Qed.

Lemma main_failure_logged_witness :
  validated sample_request (PStr "p") (PStr "z")
  /\ fst (create_snapshots_for_all_disks failed_listing_env (PStr "p") (PStr "z")
            (received failed_listing_env (PStr "p") (PStr "z") empty_world))
     = Raise (Exn (OtherError "Forbidden") "permission denied")
  /\ stderr (snd (main failed_listing_env sample_request empty_world))
     = ["Received request payload: project=p, zone=z";
        "Snapshot creation failed: permission denied"].
Proof.
  assert (Hv : validated sample_request (PStr "p") (PStr "z")).
  { split; [reflexivity|].
    exists [("project", PStr "p"); ("zone", PStr "z")]. repeat split. }
  split; [exact Hv|]. split; [reflexivity|].
  destruct (main_failure_logged failed_listing_env sample_request
              (PStr "p") (PStr "z") empty_world
              (Exn (OtherError "Forbidden") "permission denied") Hv eq_refl)
    as [_ H].
  rewrite H. reflexivity.
Defined.

Lemma orchestrator_entered_once (E : env) (project zone : pyval) (w0 : world) :
  orchestrator_calls (calls (snd (create_snapshots_for_all_disks E project zone w0)))
    = S (orchestrator_calls (calls w0)).
Proof.
  pose proof (list_disks_frame E project zone PNone
                (log_call (CallCreateAll project zone) w0)) as (_ & _ & _ & Hca).
  rewrite orchestrator_unfold. cbv zeta.
  destruct (list_disks E project zone PNone
              (log_call (CallCreateAll project zone) w0)) as [[ds|e] w1];
    cbn [fst snd] in *.
  - match goal with
    | |- context [for_each ds ?f ?w2] =>
        destruct (for_each_snapshot_disk E project zone
                    (lower (strftime_B (now E (ticks w0))))
                    (strftime_Y (now E (S (ticks w0)))) ds w2)
          as (w' & lines & Hrun & _ & _ & _ & _ & Ho)
    end.
    rewrite Hrun. cbn [fst snd calls] in *. rewrite Ho, Hca. simpl.
    rewrite !orchestrator_calls_app. simpl. lia.
  - rewrite Hca. simpl. rewrite !orchestrator_calls_app. simpl. lia.
Qed.

(** X26: a validated request makes the handler enter the orchestrator
    exactly once, whether the batch then succeeds or fails; there is no
    retry. *)
Theorem main_enters_orchestrator_once
    (E : env) (req : request) (project zone : pyval) (w : world) :
  validated req project zone ->
  orchestrator_calls (calls (snd (main E req w))) = S (orchestrator_calls (calls w)).
Proof.
  intros (Hdata & d & Hjson & Hp & Hz & Htp & Htz).
  assert (Hd : d <> []) by (destruct d; [discriminate|congruence]).
  rewrite (main_object E req d w Hdata Hjson Hd). cbv zeta.
  unfold field. rewrite Hp, Hz, Htp, Htz. cbn [negb orb].
  pose proof (orchestrator_entered_once E project zone (received E project zone w))
    as Honce.
  destruct (create_snapshots_for_all_disks E project zone (received E project zone w))
    as [[u|e'] w2]; cbn [fst snd] in *; exact Honce.
Qed.

Lemma main_enters_orchestrator_once_witness :
  validated sample_request (PStr "p") (PStr "z")
  /\ orchestrator_calls (calls (snd (main sample_env sample_request empty_world)))
     = 1%nat.
Proof.
  assert (Hv : validated sample_request (PStr "p") (PStr "z")).
  { split; [reflexivity|].
    exists [("project", PStr "p"); ("zone", PStr "z")]. repeat split. }
  split; [exact Hv|].
  apply (main_enters_orchestrator_once sample_env sample_request
           (PStr "p") (PStr "z") empty_world Hv).
Defined.
